(** * chatspec.types: the chat-completion data model and its dual-access wrapper

    A shallow embedding of [chatspec/types.py].  The file declares two kinds of
    types:

    - request-side types ([Function], [Tool], [Message], the content parts ...)
      are [TypedDict]s: at run time they are plain dictionaries and calling
      them performs no validation;
    - response-side types ([Completion], [CompletionChunk], [Embedding] ...)
      are pydantic models deriving from [Subscriptable], which adds
      [__getitem__], [__setitem__], [__contains__] and [get] on top of
      [BaseModel].

    The declarations are embedded as terms of a small type language [ty]; what
    the base class does with them (validation at construction, construction
    without validation, attribute access, [model_dump]) is embedded as
    functions over that language.  What the base class contributes and the
    source does not determine (the lax conversion tables between scalars, the
    attributes and the properties inherited from [BaseModel] and [object],
    the default attribute write used for names that start with an
    underscore) is taken as a parameter. *)

From Stdlib Require Import List String Ascii ZArith Bool Lia.
From Stdlib Require Import Floats.SpecFloat.
Import ListNotations.
Open Scope string_scope.

Set Warnings "-register-all".

(** ** Raw payloads

    What a caller hands to a constructor: parsed JSON.  Python integers are
    unbounded ([Z]); Python floats are binary64 values, infinities and NaN
    included ([spec_float]); a dictionary is kept as the list of its items in
    insertion order. *)

Inductive raw : Type :=
| RNone
| RBool (b : bool)
| RInt (z : Z)
| RFloat (f : spec_float)
| RStr (s : string)
| RList (l : list raw)
| RDict (d : list (string * raw)).

(** ** Declared types *)

(** [FieldInfo.default]: [PydanticUndefined] for a field declared without a
    default value (a required field). *)
Inductive default : Type :=
| PydanticUndefined
| Default (v : raw).

Inductive ty : Type :=
| TStr                                   (* str *)
| TInt                                   (* int *)
| TFloat                                 (* float *)
| TBool                                  (* bool *)
| TAny                                   (* Any *)
| TLiteral (alts : list string)          (* Literal["a", "b", ...] *)
| TOptional (t : ty)                     (* Optional[t] *)
| TList (t : ty)                         (* List[t] *)
| TIterable (t : ty)                     (* Iterable[t] *)
| TDict (t : ty)                         (* Dict[str, t] *)
| TUnion (ts : list ty)                  (* Union[t1, t2, ...] *)
| TTypedDict (name : string) (fields : list (string * (bool * ty)))
| TModel (name : string) (fields : list (string * (ty * default))).

(** A key of a [TypedDict]: [Required[t]] (also the meaning of a bare
    annotation, the classes being total) and [NotRequired[t]]. *)
Definition Required (k : string) (t : ty) : string * (bool * ty) := (k, (true, t)).
Definition NotRequired (k : string) (t : ty) : string * (bool * ty) := (k, (false, t)).

(** A field of a model: [k: t] and [k: t = v]. *)
Definition field (k : string) (t : ty) : string * (ty * default) :=
  (k, (t, PydanticUndefined)).
Definition field_default (k : string) (t : ty) (v : raw) : string * (ty * default) :=
  (k, (t, Default v)).

(** ** Run-time values *)

(** A model instance: its class name, [model_fields] (name, annotation and
    declared default of every field of the class), [model_fields_set] and
    [__dict__]. *)
Record instance_of (V : Type) : Type := Instance {
  cls : string;
  model_fields : list (string * (ty * default));
  model_fields_set : list string;
  __dict__ : list (string * V) }.

Arguments Instance {V} _ _ _ _.
Arguments cls {V} _.
Arguments model_fields {V} _.
Arguments model_fields_set {V} _.
Arguments __dict__ {V} _.

Inductive value : Type :=
| VNone
| VBool (b : bool)
| VInt (z : Z)
| VFloat (f : spec_float)
| VStr (s : string)
| VList (l : list value)
| VDict (d : list (string * value))
| VModel (m : instance_of value)
| VIter (t : ty) (pending : list raw)    (* a lazily validating iterator *)
| VMethod (name : string).               (* a bound method of the instance *)

Definition instance : Type := instance_of value.

Fixpoint of_raw (r : raw) : value :=
  match r with
  | RNone => VNone
  | RBool b => VBool b
  | RInt z => VInt z
  | RFloat f => VFloat f
  | RStr s => VStr s
  | RList l => VList (map of_raw l)
  | RDict d => VDict (map (fun kv => (fst kv, of_raw (snd kv))) d)
  end.

(** ** Exceptions and results *)

(** [ValidationError] carries the names of the fields of the validated mapping
    that are in error (the head of each error location). *)
Inductive exn : Type :=
| ValidationError (fields : list string)
| AttributeError (name : string)
| ValueError (name : string)
| TypeError.

Inductive result (A : Type) : Type :=
| Ok (a : A)
| Raise (e : exn).

Arguments Ok {A} _.
Arguments Raise {A} _.

Definition is_ok {A : Type} (r : result A) : bool :=
  match r with Ok _ => true | Raise _ => false end.

(** ** Dictionaries as item lists *)

Section Items.

Context {A : Type}.

(** [d.get(k)] *)
Fixpoint lookup (k : string) (d : list (string * A)) : option A :=
  match d with
  | [] => None
  | (k', v) :: d' => if String.eqb k k' then Some v else lookup k d'
  end.

(** [d[k] = v]: replaces the value in place, or appends a new item. *)
Fixpoint update (k : string) (v : A) (d : list (string * A)) : list (string * A) :=
  match d with
  | [] => [(k, v)]
  | (k', v') :: d' =>
      if String.eqb k k' then (k, v) :: d' else (k', v') :: update k v d'
  end.

End Items.

(** [k in xs] *)
Definition mem (k : string) (xs : list string) : bool :=
  existsb (String.eqb k) xs.

(** [s.add(k)] *)
Definition add (k : string) (s : list string) : list string :=
  if mem k s then s else s ++ [k].

(** [Ok] of all the values when every result is [Ok]. *)
Fixpoint all_ok {A : Type} (rs : list (result A)) : option (list A) :=
  match rs with
  | [] => Some []
  | Ok a :: rs' =>
      match all_ok rs' with Some l => Some (a :: l) | None => None end
  | Raise _ :: _ => None
  end.

(** ** The library's share

    In lax mode a scalar validator accepts, besides values of its own type,
    what the library's conversion table maps into it (for instance a numeric
    string for [int]).  The tables are the library's: they are a parameter,
    consulted only when the input is not of the exact type. *)

Record Coercions : Type := {
  lax_int : raw -> option Z;
  lax_float : raw -> option spec_float;
  lax_bool : raw -> option bool }.

(** The outcome of one declared field when a mapping is validated. *)
Inductive field_outcome : Type :=
| Supplied (r : result value)   (* the key is in the input *)
| Defaulted (v : value)         (* absent, the declared default is used *)
| Omitted                       (* absent and not required (TypedDict) *)
| Missing.                      (* absent and required *)

Definition model_field_outcome (validator : raw -> result value) (dflt : default)
    (k : string) (input : list (string * raw)) : field_outcome :=
  match lookup k input with
  | Some x => Supplied (validator x)
  | None =>
      match dflt with
      | Default v => Defaulted (of_raw v)
      | PydanticUndefined => Missing
      end
  end.

Definition typed_dict_field_outcome (validator : raw -> result value) (required : bool)
    (k : string) (input : list (string * raw)) : field_outcome :=
  match lookup k input with
  | Some x => Supplied (validator x)
  | None => if required then Missing else Omitted
  end.

(** The validated items, in declaration order. *)
Fixpoint outcome_items (os : list (string * field_outcome)) : list (string * value) :=
  match os with
  | [] => []
  | (k, Supplied (Ok v)) :: os' => (k, v) :: outcome_items os'
  | (k, Defaulted v) :: os' => (k, v) :: outcome_items os'
  | _ :: os' => outcome_items os'
  end.

(** The fields that were explicitly supplied. *)
Fixpoint outcome_fields_set (os : list (string * field_outcome)) : list string :=
  match os with
  | [] => []
  | (k, Supplied (Ok _)) :: os' => k :: outcome_fields_set os'
  | _ :: os' => outcome_fields_set os'
  end.

(** The fields in error: every one of them is reported, not only the first. *)
Fixpoint outcome_errors (os : list (string * field_outcome)) : list string :=
  match os with
  | [] => []
  | (k, Supplied (Raise _)) :: os' => k :: outcome_errors os'
  | (k, Missing) :: os' => k :: outcome_errors os'
  | _ :: os' => outcome_errors os'
  end.

Definition chars (s : string) : list raw :=
  map (fun c => RStr (String c EmptyString)) (list_ascii_of_string s).

Section Validation.

Variable lax : Coercions.

(** Validation of a raw value against a declared type, as the base class runs
    it at construction time (default configuration: lax mode, unknown keys
    ignored, defaults not validated, infinities and NaN allowed).

    - A union tries its members from the left and keeps the first that
      accepts.  (The library prefers an exact match to a converted one; in
      each union of the source the leftmost accepting member is exact.)
    - [Iterable[t]] accepts anything iterable and validates nothing at once:
      the result is an iterator that validates each item when it is consumed.
    - A model accepts a mapping; every declared field is looked up, validated
      if supplied, defaulted if absent. *)
Fixpoint validate (t : ty) (v : raw) {struct t} : result value :=
  match t with
  | TStr =>
      match v with
      | RStr s => Ok (VStr s)
      | _ => Raise (ValidationError [])
      end
  | TInt =>
      match v with
      | RInt z => Ok (VInt z)
      | _ =>
          match lax_int lax v with
          | Some z => Ok (VInt z)
          | None => Raise (ValidationError [])
          end
      end
  | TFloat =>
      match v with
      | RFloat f => Ok (VFloat f)
      | _ =>
          match lax_float lax v with
          | Some f => Ok (VFloat f)
          | None => Raise (ValidationError [])
          end
      end
  | TBool =>
      match v with
      | RBool b => Ok (VBool b)
      | _ =>
          match lax_bool lax v with
          | Some b => Ok (VBool b)
          | None => Raise (ValidationError [])
          end
      end
  | TAny => Ok (of_raw v)
  | TLiteral alts =>
      match v with
      | RStr s => if mem s alts then Ok (VStr s) else Raise (ValidationError [])
      | _ => Raise (ValidationError [])
      end
  | TOptional t' =>
      match v with
      | RNone => Ok VNone
      | _ => validate t' v
      end
  | TList t' =>
      match v with
      | RList l =>
          match all_ok (map (validate t') l) with
          | Some ws => Ok (VList ws)
          | None => Raise (ValidationError [])
          end
      | _ => Raise (ValidationError [])
      end
  | TIterable t' =>
      match v with
      | RList l => Ok (VIter t' l)
      | RStr s => Ok (VIter t' (chars s))
      | RDict d => Ok (VIter t' (map (fun kv => RStr (fst kv)) d))
      | _ => Raise (ValidationError [])
      end
  | TDict t' =>
      match v with
      | RDict d =>
          let os := map (fun kv => (fst kv, Supplied (validate t' (snd kv)))) d in
          match outcome_errors os with
          | [] => Ok (VDict (outcome_items os))
          | errs => Raise (ValidationError errs)
          end
      | _ => Raise (ValidationError [])
      end
  | TUnion ts =>
      (fix first (ts : list ty) : result value :=
         match ts with
         | [] => Raise (ValidationError [])
         | t' :: ts' =>
             match validate t' v with
             | Ok w => Ok w
             | Raise _ => first ts'
             end
         end) ts
  | TTypedDict _ fields =>
      match v with
      | RDict d =>
          let os :=
            map (fun f =>
                   match f with
                   | (k, (required, t')) =>
                       (k, typed_dict_field_outcome (validate t') required k d)
                   end) fields in
          match outcome_errors os with
          | [] => Ok (VDict (outcome_items os))
          | errs => Raise (ValidationError errs)
          end
      | _ => Raise (ValidationError [])
      end
  | TModel name fields =>
      match v with
      | RDict d =>
          let os :=
            map (fun f =>
                   match f with
                   | (k, (t', dflt)) =>
                       (k, model_field_outcome (validate t') dflt k d)
                   end) fields in
          match outcome_errors os with
          | [] =>
              Ok (VModel (Instance name fields
                            (outcome_fields_set os)
                            (outcome_items os)))
          | errs => Raise (ValidationError errs)
          end
      | _ => Raise (ValidationError [])
      end
  end.

(** Calling a class with keyword arguments.  A model class validates them
    and builds an instance.  A [TypedDict] class is [dict] at run time: the
    call builds the dictionary of its arguments and checks nothing. *)
Definition construct (Cls : ty) (kwargs : list (string * raw)) : result value :=
  match Cls with
  | TModel _ _ => validate Cls (RDict kwargs)
  | TTypedDict _ _ => Ok (of_raw (RDict kwargs))
  | _ => Raise TypeError
  end.

(** Consuming an iterator produced for an [Iterable[t]] field: each pending
    item is validated against [t]; the first that fails raises. *)
Definition consume (it : value) : result (list value) :=
  match it with
  | VIter t pending =>
      match all_ok (map (validate t) pending) with
      | Some ws => Ok ws
      | None => Raise (ValidationError [])
      end
  | _ => Raise TypeError
  end.

End Validation.

(** ** Tool and function calling (request side, [TypedDict]) *)

Definition FunctionParameters : ty := TDict TAny.

Definition Function : ty :=
  TTypedDict "Function"
    [ Required "name" TStr;
      Required "description" TStr;
      Required "parameters" FunctionParameters;
      NotRequired "strict" TBool ].

Definition Tool : ty :=
  TTypedDict "Tool"
    [ Required "type" (TLiteral ["function"]);
      Required "function" Function ].

Definition FunctionCall : ty :=
  TTypedDict "FunctionCall"
    [ Required "name" TStr;
      Required "arguments" TStr ].

Definition ToolCall : ty :=
  TTypedDict "ToolCall"
    [ Required "id" TStr;
      Required "function" Function;
      Required "type" (TLiteral ["function"]) ].

(** ** Message content parts ([TypedDict])

    [image_url] and [input_audio] are annotated [Dict[str, Any]]; the
    [ImageURL] and [InputAudio] dictionaries of the source are the values
    assigned in the class body, not the types of the keys. *)

Definition MessageContentImagePart : ty :=
  TTypedDict "MessageContentImagePart"
    [ Required "image_url" (TDict TAny);
      Required "type" (TLiteral ["image_url"]) ].

Definition MessageContentAudioPart : ty :=
  TTypedDict "MessageContentAudioPart"
    [ Required "input_audio" (TDict TAny);
      Required "type" (TLiteral ["input_audio"]) ].

Definition MessageContentTextPart : ty :=
  TTypedDict "MessageContentTextPart"
    [ Required "text" TStr;
      Required "type" (TLiteral ["text"]) ].

Definition MessageContentPart : ty :=
  TUnion [ MessageContentImagePart; MessageContentAudioPart; MessageContentTextPart ].

Definition MessageContent : ty :=
  TUnion [ TStr; TIterable MessageContentPart ].

Definition MessageTextContent : ty :=
  TUnion [ TStr; TIterable MessageContentTextPart ].

(** ** Messages ([TypedDict]) *)

Definition MessageRole : ty :=
  TLiteral [ "assistant"; "user"; "system"; "tool"; "developer" ].

Definition Message : ty :=
  TTypedDict "Message"
    [ Required "role" MessageRole;
      Required "content" MessageContent;
      NotRequired "name" TStr;
      NotRequired "function_call" (TDict TAny);
      NotRequired "tool_calls" (TIterable (TDict TAny));
      NotRequired "tool_call_id" TStr ].

(** ** Response types (models deriving from [Subscriptable]) *)

(** [BaseModel] itself, used as the type of [usage]: a model without fields. *)
Definition BaseModel : ty := TModel "BaseModel" [].

Definition TopLogprob : ty :=
  TModel "TopLogprob"
    [ field "token" TStr;
      field_default "bytes" (TOptional (TList TInt)) RNone;
      field "logprob" TFloat ].

Definition TokenLogprob : ty :=
  TModel "TokenLogprob"
    [ field "token" TStr;
      field_default "bytes" (TOptional (TList TInt)) RNone;
      field "logprob" TFloat;
      field "top_logprobs" (TList TopLogprob) ].

Definition ChoiceLogprobs : ty :=
  TModel "ChoiceLogprobs"
    [ field_default "content" (TOptional (TList TokenLogprob)) RNone;
      field_default "refusal" (TOptional (TList TokenLogprob)) RNone ].

Definition CompletionFunction : ty :=
  TModel "CompletionFunction"
    [ field "name" TStr;
      field "arguments" TStr ].

Definition CompletionToolCall : ty :=
  TModel "CompletionToolCall"
    [ field "id" TStr;
      field "type" (TLiteral ["function"]);
      field "function" CompletionFunction ].

Definition CompletionMessage : ty :=
  TModel "CompletionMessage"
    [ field "role" (TLiteral ["assistant"]);
      field "content" MessageContent;
      field_default "name" (TOptional TStr) RNone;
      field_default "function_call" (TOptional CompletionFunction) RNone;
      field_default "tool_calls" (TOptional (TList CompletionToolCall)) RNone;
      field_default "tool_call_id" (TOptional TStr) RNone ].

Definition Completion_Choice : ty :=
  TModel "Completion.Choice"
    [ field "message" CompletionMessage;
      field "finish_reason" (TLiteral ["stop"; "length"; "tool_calls"]);
      field "index" TInt;
      field_default "logprobs" (TOptional ChoiceLogprobs) RNone ].

Definition Completion : ty :=
  TModel "Completion"
    [ field "id" TStr;
      field "choices" (TList Completion_Choice);
      field "created" TInt;
      field "model" TStr;
      field "object" (TUnion [ TStr; TLiteral ["chat.completion"] ]);
      field_default "service_tier" (TOptional (TLiteral ["scale"; "default"])) RNone;
      field_default "system_fingerprint" (TOptional TStr) RNone;
      field_default "usage" (TOptional BaseModel) RNone ].

Definition CompletionChunk_Choice : ty :=
  TModel "CompletionChunk.Choice"
    [ field "delta" CompletionMessage;
      field "finish_reason" (TLiteral ["stop"; "length"; "tool_calls"]);
      field "index" TInt;
      field_default "logprobs" (TOptional ChoiceLogprobs) RNone ].

Definition CompletionChunk : ty :=
  TModel "CompletionChunk"
    [ field "id" TStr;
      field "choices" (TList CompletionChunk_Choice);
      field "created" TInt;
      field "model" TStr;
      field "object" (TUnion [ TStr; TLiteral ["chat.completion"] ]);
      field_default "service_tier" (TOptional (TLiteral ["scale"; "default"])) RNone;
      field_default "system_fingerprint" (TOptional TStr) RNone;
      field_default "usage" (TOptional BaseModel) RNone ].

Definition Embedding : ty :=
  TModel "Embedding"
    [ field "embedding" (TList TFloat);
      field "index" TInt;
      field "object" (TLiteral ["embedding"]) ].

(** The response models of the file. *)
Definition response_models : list ty :=
  [ TopLogprob; TokenLogprob; ChoiceLogprobs; CompletionFunction;
    CompletionToolCall; CompletionMessage; Completion_Choice; Completion;
    CompletionChunk_Choice; CompletionChunk; Embedding ].

(** ** Subscriptable: mapping-style access over a model *)

(** The attributes the class [Subscriptable] itself defines. *)
Definition Subscriptable_methods : list string :=
  [ "__getitem__"; "__setitem__"; "__contains__"; "get" ].

(** The base class's test for a field name: no leading underscore. *)
Definition is_valid_field_name (name : string) : bool :=
  negb (String.prefix "_" name).

(** [default is not None]; [PydanticUndefined] is not [None]. *)
Definition is_not_None (d : default) : bool :=
  match d with
  | Default RNone => false
  | _ => true
  end.

Section Subscriptable.

(** [type_attr c k]: what the type of an instance of class [c] provides under
    the name [k] besides the methods of [Subscriptable] (members inherited
    from [BaseModel] and [object], nested classes), if anything. *)
Variable type_attr : string -> string -> option value.

(** [readonly_property c k]: the type of an instance of class [c] holds a
    property under the name [k].  The properties in question are those of
    [BaseModel] (such as [model_fields_set]); none has a setter, and the
    classes of the file define none. *)
Variable readonly_property : string -> string -> bool.

(** [object.__setattr__], which the base class falls back to for a name that
    starts with an underscore. *)
Variable object_setattr : instance -> string -> value -> result instance.

(** [getattr(self, key)]: the instance dictionary, then the type. *)
Definition getattr (self : instance) (key : string) : result value :=
  match lookup key (__dict__ self) with
  | Some v => Ok v
  | None =>
      if mem key Subscriptable_methods then Ok (VMethod key)
      else
        match type_attr (cls self) key with
        | Some v => Ok v
        | None => Raise (AttributeError key)
        end
  end.

(** [setattr(self, key, value)], that is [BaseModel.__setattr__] under the
    configuration of the source (no class variable, no frozen field, no
    validation on assignment, extra keys not allowed): a name that starts
    with an underscore goes to [object.__setattr__]; a declared field is
    stored as given and recorded in [model_fields_set]; a property of the
    type is handed the value and, having no setter, raises [AttributeError];
    any other name is refused with [ValueError].

    The base class looks for a property on the type before it looks for a
    field.  No class of the file declares a field under the name of a
    property, so the order of the two tests does not show; the test for a
    field is written first. *)
Definition setattr (self : instance) (key : string) (v : value) : result instance :=
  if negb (is_valid_field_name key) then object_setattr self key v
  else if mem key (map fst (model_fields self)) then
    Ok (Instance (cls self) (model_fields self)
          (add key (model_fields_set self))
          (update key v (__dict__ self)))
  else if readonly_property (cls self) key then Raise (AttributeError key)
  else Raise (ValueError key).

Definition __getitem__ (self : instance) (key : string) : result value :=
  getattr self key.

Definition __setitem__ (self : instance) (key : string) (v : value) : result instance :=
  setattr self key v.

Definition __contains__ (self : instance) (key : string) : bool :=
  if mem key (model_fields_set self) then true
  else
    match lookup key (model_fields self) with
    | Some info => is_not_None (snd info)
    | None => false
    end.

Definition get (self : instance) (key : string) (default : value) : result value :=
  if __contains__ self key then __getitem__ self key else Ok default.

(** A sequence of key-based accesses to one instance.  An access that raises
    leaves the instance as it was. *)
Inductive access : Type :=
| Read (key : string)
| Write (key : string) (v : value).

Definition step (self : instance) (a : access) : result value * instance :=
  match a with
  | Read key => (__getitem__ self key, self)
  | Write key v =>
      match __setitem__ self key v with
      | Ok self' => (Ok VNone, self')
      | Raise e => (Raise e, self)
      end
  end.

Fixpoint run (self : instance) (l : list access) : list (result value) * instance :=
  match l with
  | [] => ([], self)
  | a :: l' =>
      let (r, self') := step self a in
      let (rs, self'') := run self' l' in
      (r :: rs, self'')
  end.

End Subscriptable.

(** ** Serialization *)

(** A serializer accepts a value by its form: this is the test a union makes
    of its members, from the left. *)
Fixpoint head_matches (t : ty) (v : value) {struct t} : bool :=
  match t with
  | TStr => match v with VStr _ => true | _ => false end
  | TInt => match v with VInt _ => true | _ => false end
  | TFloat => match v with VFloat _ => true | _ => false end
  | TBool => match v with VBool _ => true | _ => false end
  | TAny => true
  | TLiteral alts => match v with VStr s => mem s alts | _ => false end
  | TOptional t' => match v with VNone => true | _ => head_matches t' v end
  | TList _ => match v with VList _ => true | _ => false end
  | TIterable _ => match v with VIter _ _ => true | _ => false end
  | TDict _ => match v with VDict _ => true | _ => false end
  | TUnion ts => existsb (fun t' => head_matches t' v) ts
  | TTypedDict _ _ => match v with VDict _ => true | _ => false end
  | TModel name _ => match v with VModel m => String.eqb (cls m) name | _ => false end
  end.

(** How a slot of a declared type serializes the value it holds: by the
    declared item type of a list or of a dictionary, by the declared fields of
    a model or of a typed dictionary, or, when the value is not of the form
    the type expects (and for scalars, [Any] and iterators), by the value
    itself. *)
Inductive slot : Type :=
| SInfer
| SList (t : ty)
| SDict (t : ty)
| SFields (fields : list (string * ty)).

(** The serializer of a model type takes any object that has a [__dict__]
    (an instance of any model, a bound method) and reads the declared fields
    off that dictionary. *)
Fixpoint resolve (t : ty) (v : value) {struct t} : slot :=
  match t with
  | TOptional t' => match v with VNone => SInfer | _ => resolve t' v end
  | TList t' => match v with VList _ => SList t' | _ => SInfer end
  | TDict t' => match v with VDict _ => SDict t' | _ => SInfer end
  | TUnion ts =>
      (fix first (ts : list ty) : slot :=
         match ts with
         | [] => SInfer
         | t' :: ts' => if head_matches t' v then resolve t' v else first ts'
         end) ts
  | TTypedDict _ fields =>
      match v with
      | VDict _ => SFields (map (fun f => (fst f, snd (snd f))) fields)
      | _ => SInfer
      end
  | TModel _ fields =>
      match v with
      | VModel _ | VMethod _ => SFields (map (fun f => (fst f, fst (snd f))) fields)
      | _ => SInfer
      end
  | _ => SInfer
  end.

(** Serialization (python mode, default arguments) of the value held by a
    slot.  A list or a dictionary is serialized item by item.  Where fields
    are declared, the items of the dictionary that are declared fields are
    written, each by its declared type, and the others are dropped.  A model
    instance in a slot that declares no fields for it is serialized by the
    fields of its own class.  A scalar and an iterator are left as they
    are. *)
Fixpoint dump_slot (v : value) (s : slot) {struct v} : value :=
  match v with
  | VList l =>
      match s with
      | SList t => VList (map (fun x => dump_slot x (resolve t x)) l)
      | _ => VList (map (fun x => dump_slot x SInfer) l)
      end
  | VDict d =>
      match s with
      | SDict t => VDict (map (fun kv => (fst kv, dump_slot (snd kv) (resolve t (snd kv)))) d)
      | SFields fs =>
          VDict (flat_map (fun kv =>
                             match lookup (fst kv) fs with
                             | Some t => [(fst kv, dump_slot (snd kv) (resolve t (snd kv)))]
                             | None => []
                             end) d)
      | SInfer => VDict (map (fun kv => (fst kv, dump_slot (snd kv) SInfer)) d)
      | SList _ => VDict (map (fun kv => (fst kv, dump_slot (snd kv) SInfer)) d)
      end
  | VModel m =>
      let fs := match s with
                | SFields fs => fs
                | _ => map (fun f => (fst f, fst (snd f))) (model_fields m)
                end in
      VDict (flat_map (fun kv =>
                         match lookup (fst kv) fs with
                         | Some t => [(fst kv, dump_slot (snd kv) (resolve t (snd kv)))]
                         | None => []
                         end) (__dict__ m))
  | VMethod _ =>
      match s with
      | SFields _ => VDict []
      | _ => v
      end
  | _ => v
  end.

(** The serialization of a value by a declared type, and by the value alone. *)
Definition dump_by (v : value) (t : ty) : value := dump_slot v (resolve t v).

(** The items written for a dictionary under declared fields. *)
Definition written_items (fs : list (string * ty)) (d : list (string * value)) :
    list (string * value) :=
  flat_map (fun kv =>
              match lookup (fst kv) fs with
              | Some t => [(fst kv, dump_by (snd kv) t)]
              | None => []
              end) d.

Definition dump (v : value) : value := dump_slot v SInfer.

(** [self.model_dump()] *)
Definition model_dump (self : instance) : value := dump (VModel self).

(** ** Construction without validation *)

(** [Cls.model_construct(values)]: every declared field takes the value given
    for it, if any, and else its default, if it has one; a field declared
    without a default for which no value is given is left unset.  Nothing is
    validated, and values given under other names are dropped. *)
Fixpoint construct_items (fields : list (string * (ty * default)))
    (values : list (string * value)) : list (string * value) :=
  match fields with
  | [] => []
  | (k, (_, dflt)) :: fields' =>
      match lookup k values with
      | Some v => (k, v) :: construct_items fields' values
      | None =>
          match dflt with
          | Default d => (k, of_raw d) :: construct_items fields' values
          | PydanticUndefined => construct_items fields' values
          end
      end
  end.

Definition model_construct (Cls : ty) (values : list (string * value)) : result instance :=
  match Cls with
  | TModel name fields =>
      Ok (Instance name fields
            (filter (fun k => match lookup k values with Some _ => true | None => false end)
               (map fst fields))
            (construct_items fields values))
  | _ => Raise TypeError
  end.

(** ** Instances as construction and key-writes leave them *)

Definition declared (self : instance) (key : string) : bool :=
  mem key (map fst (model_fields self)).

Fixpoint keys_eqb (xs ys : list string) : bool :=
  match xs, ys with
  | [], [] => true
  | x :: xs', y :: ys' => String.eqb x y && keys_eqb xs' ys'
  | _, _ => false
  end.

(** Every declared field has an entry in [__dict__] and nothing else has;
    [model_fields_set] holds declared fields only; field names are valid. *)
Definition well_formed (self : instance) : bool :=
  keys_eqb (map fst (__dict__ self)) (map fst (model_fields self))
  && forallb (declared self) (model_fields_set self)
  && forallb is_valid_field_name (map fst (model_fields self)).

(** A model class whose field names the base class accepts. *)
Definition class_ok (Cls : ty) : bool :=
  match Cls with
  | TModel _ fields => forallb is_valid_field_name (map fst fields)
  | _ => false
  end.

(** The instances a program obtains: by construction, then by key-writes
    under field names. *)
Inductive reachable (lax : Coercions) (readonly_property : string -> string -> bool)
    (object_setattr : instance -> string -> value -> result instance) : instance -> Prop :=
| reach_construct (Cls : ty) (kwargs : list (string * raw)) (m : instance) :
    class_ok Cls = true ->
    construct lax Cls kwargs = Ok (VModel m) ->
    reachable lax readonly_property object_setattr m
| reach_write (m m' : instance) (k : string) (v : value) :
    reachable lax readonly_property object_setattr m ->
    is_valid_field_name k = true ->
    __setitem__ readonly_property object_setattr m k v = Ok m' ->
    reachable lax readonly_property object_setattr m'.

Definition no_coercion : Coercions :=
  {| lax_int := fun _ => None; lax_float := fun _ => None; lax_bool := fun _ => None |}.

(** The outcomes of the fields of a model on an input mapping, as [validate]
    computes them. *)
Definition model_outcomes (lax : Coercions) (fields : list (string * (ty * default)))
    (d : list (string * raw)) : list (string * field_outcome) :=
  map (fun f =>
         match f with
         | (k, (t', dflt)) => (k, model_field_outcome (validate lax t') dflt k d)
         end) fields.

Definition typed_dict_outcomes (lax : Coercions) (fields : list (string * (bool * ty)))
    (d : list (string * raw)) : list (string * field_outcome) :=
  map (fun f =>
         match f with
         | (k, (required, t')) =>
             (k, typed_dict_field_outcome (validate lax t') required k d)
         end) fields.

(** The fields a class declares, and the declared default of a field. *)
Definition fields_of (Cls : ty) : list (string * (ty * default)) :=
  match Cls with
  | TModel _ fields => fields
  | _ => []
  end.

Definition default_of (Cls : ty) (k : string) : option default :=
  option_map snd (lookup k (fields_of Cls)).

(** ** What a field accepts *)

(** A field of a model accepts an input mapping: the supplied value validates,
    or the key is absent and the field has a default. *)
Definition field_accepts (lax : Coercions) (d : list (string * raw))
    (f : string * (ty * default)) : bool :=
  match f with
  | (k, (t, dflt)) =>
      match lookup k d with
      | Some x => is_ok (validate lax t x)
      | None =>
          match dflt with
          | Default _ => true
          | PydanticUndefined => false
          end
      end
  end.

(** Inputs an [int], respectively a [float], field accepts. *)
Definition accepts_int (lax : Coercions) (x : raw) : bool :=
  match x with
  | RInt _ => true
  | _ => match lax_int lax x with Some _ => true | None => false end
  end.

Definition accepts_float (lax : Coercions) (x : raw) : bool :=
  match x with
  | RFloat _ => true
  | _ => match lax_float lax x with Some _ => true | None => false end
  end.

Definition typed_dict_field_accepts (lax : Coercions) (d : list (string * raw))
    (f : string * (bool * ty)) : bool :=
  match f with
  | (k, (required, t)) =>
      match lookup k d with
      | Some x => is_ok (validate lax t x)
      | None => negb required
      end
  end.

(** ** Canonical payloads and what a serialized value covers *)

Fixpoint nodupb (xs : list string) : bool :=
  match xs with
  | [] => true
  | x :: xs' => negb (mem x xs') && nodupb xs'
  end.

(** A value that already has the declared type, so that validation converts
    nothing, defers nothing and drops nothing: a scalar of the declared kind;
    a list of such values; a mapping whose every key is a declared field, with
    every field without a default supplied.  A value for an [Iterable] is
    never of this form (its validation is deferred); for a union the first
    member decides.  The request-side forms ([Any], [Dict], typed
    dictionaries) occur in no response model outside [Iterable] and are left
    out. *)
Fixpoint exact (t : ty) (P : raw) {struct t} : bool :=
  match t with
  | TStr => match P with RStr _ => true | _ => false end
  | TInt => match P with RInt _ => true | _ => false end
  | TFloat => match P with RFloat _ => true | _ => false end
  | TBool => match P with RBool _ => true | _ => false end
  | TLiteral alts => match P with RStr s => mem s alts | _ => false end
  | TOptional t' => match P with RNone => true | _ => exact t' P end
  | TList t' => match P with RList l => forallb (exact t') l | _ => false end
  | TUnion ts => match ts with t' :: _ => exact t' P | [] => false end
  | TModel _ fields =>
      match P with
      | RDict d =>
          forallb (fun kx => mem (fst kx) (map fst fields)) d
          && forallb (fun f =>
                        match f with
                        | (k, (t', dflt)) =>
                            match lookup k d with
                            | Some x => exact t' x
                            | None =>
                                match dflt with
                                | Default _ => true
                                | PydanticUndefined => false
                                end
                            end
                        end) fields
      | _ => false
      end
  | TAny | TIterable _ | TDict _ | TTypedDict _ _ => false
  end.

(** A payload in canonical form for a class: the value it supplies for a
    declared field has the declared type, and every field without a default
    is supplied.  Keys the class does not declare may be present. *)
Definition canonical (Cls : ty) (kwargs : list (string * raw)) : bool :=
  forallb (fun f =>
             match f with
             | (k, (t, dflt)) =>
                 match lookup k kwargs with
                 | Some x => exact t x
                 | None =>
                     match dflt with
                     | Default _ => true
                     | PydanticUndefined => false
                     end
                 end
             end) (fields_of Cls).

(** A serialized value covers a payload: it is the same scalar; or a list of
    the same length whose items cover those of the payload, in order; or a
    mapping that has every key of the payload, under a value that covers the
    payload's.  No declaration enters: the comparison is between the two
    key/value representations alone. *)
Inductive covers : raw -> value -> Prop :=
| covers_None : covers RNone VNone
| covers_Bool (b : bool) : covers (RBool b) (VBool b)
| covers_Int (n : Z) : covers (RInt n) (VInt n)
| covers_Float (f : spec_float) : covers (RFloat f) (VFloat f)
| covers_Str (s : string) : covers (RStr s) (VStr s)
| covers_List (l : list raw) (l' : list value) :
    Forall2 covers l l' -> covers (RList l) (VList l')
| covers_Dict (d : list (string * raw)) (items : list (string * value)) :
    (forall k x, lookup k d = Some x -> exists y, lookup k items = Some y /\ covers x y) ->
    covers (RDict d) (VDict items).

(** Whether a default is a scalar (as is [None], the only default of the
    file). *)
Definition scalar (v : raw) : bool :=
  match v with
  | RList _ | RDict _ => false
  | _ => true
  end.

(** ** Structural induction over declared types *)

Section ty_induction.

Variable Q : ty -> Prop.
Hypothesis HStr : Q TStr.
Hypothesis HInt : Q TInt.
Hypothesis HFloat : Q TFloat.
Hypothesis HBool : Q TBool.
Hypothesis HAny : Q TAny.
Hypothesis HLiteral : forall alts, Q (TLiteral alts).
Hypothesis HOptional : forall t, Q t -> Q (TOptional t).
Hypothesis HList : forall t, Q t -> Q (TList t).
Hypothesis HIterable : forall t, Q t -> Q (TIterable t).
Hypothesis HDict : forall t, Q t -> Q (TDict t).
Hypothesis HUnion : forall ts, Forall Q ts -> Q (TUnion ts).
Hypothesis HTypedDict :
  forall name fields, Forall (fun f => Q (snd (snd f))) fields -> Q (TTypedDict name fields).
Hypothesis HModel :
  forall name fields, Forall (fun f => Q (fst (snd f))) fields -> Q (TModel name fields).

Fixpoint ty_nested_ind (t : ty) : Q t :=
  match t with
  | TStr => HStr
  | TInt => HInt
  | TFloat => HFloat
  | TBool => HBool
  | TAny => HAny
  | TLiteral alts => HLiteral alts
  | TOptional t' => HOptional t' (ty_nested_ind t')
  | TList t' => HList t' (ty_nested_ind t')
  | TIterable t' => HIterable t' (ty_nested_ind t')
  | TDict t' => HDict t' (ty_nested_ind t')
  | TUnion ts =>
      HUnion ts
        ((fix go (ts : list ty) : Forall Q ts :=
            match ts with
            | [] => Forall_nil _
            | t' :: ts' => Forall_cons _ (ty_nested_ind t') (go ts')
            end) ts)
  | TTypedDict name fields =>
      HTypedDict name fields
        ((fix go (fs : list (string * (bool * ty))) : Forall (fun f => Q (snd (snd f))) fs :=
            match fs with
            | [] => Forall_nil _
            | (k, (r, t')) :: fs' =>
                Forall_cons (k, (r, t')) (ty_nested_ind t') (go fs')
            end) fields)
  | TModel name fields =>
      HModel name fields
        ((fix go (fs : list (string * (ty * default))) : Forall (fun f => Q (fst (snd f))) fs :=
            match fs with
            | [] => Forall_nil _
            | (k, (t', d)) :: fs' =>
                Forall_cons (k, (t', d)) (ty_nested_ind t') (go fs')
            end) fields)
  end.

End ty_induction.

(** ** Sample inputs *)

(** A type that provides nothing beyond the methods of [Subscriptable], and an
    attribute write that stores the name in the instance dictionary. *)
Definition no_type_attr : string -> string -> option value := fun _ _ => None.

Definition plain_setattr (self : instance) (key : string) (v : value) : result instance :=
  Ok (Instance (cls self) (model_fields self) (model_fields_set self)
        (update key v (__dict__ self))).

(** Two properties that every model type inherits from [BaseModel]. *)
Definition BaseModel_properties : list string := [ "model_extra"; "model_fields_set" ].

Definition base_properties : string -> string -> bool :=
  fun _ key => mem key BaseModel_properties.

Definition embedding_kwargs : list (string * raw) :=
  [ ("embedding", RList [ RFloat (S754_finite false 3 (-1)); RFloat (S754_zero false) ]);
    ("index", RInt 0);
    ("object", RStr "embedding") ].

Definition an_embedding : instance :=
  Instance "Embedding" (fields_of Embedding)
    [ "embedding"; "index"; "object" ]
    [ ("embedding", VList [ VFloat (S754_finite false 3 (-1)); VFloat (S754_zero false) ]);
      ("index", VInt 0);
      ("object", VStr "embedding") ].

(** An embedding payload with a negative index and an infinite component. *)
Definition odd_embedding_kwargs : list (string * raw) :=
  [ ("embedding", RList [ RFloat (S754_infinity false) ]);
    ("index", RInt (-1));
    ("object", RStr "embedding") ].

(** An embedding payload with a key the class does not declare. *)
Definition annotated_embedding_kwargs : list (string * raw) :=
  embedding_kwargs ++ [ ("note", RStr "first") ].

Definition a_message : raw :=
  RDict [ ("role", RStr "assistant"); ("content", RStr "hello") ].

Definition choice_kwargs (finish_reason : string) : list (string * raw) :=
  [ ("message", a_message); ("finish_reason", RStr finish_reason); ("index", RInt 0) ].

(** A subclass of [Subscriptable] with a default that is not [None]. *)
Definition Page : ty :=
  TModel "Page"
    [ field "items" (TList TStr);
      field_default "object" TStr (RStr "list") ].

Definition no_logprobs : instance :=
  Instance "ChoiceLogprobs" (fields_of ChoiceLogprobs)
    []
    [ ("content", VNone); ("refusal", VNone) ].

Definition a_page : instance :=
  Instance "Page" (fields_of Page)
    [ "items" ]
    [ ("items", VList []); ("object", VStr "list") ].

Definition odd_embedding : instance :=
  Instance "Embedding" (fields_of Embedding)
    [ "embedding"; "index"; "object" ]
    [ ("embedding", VList [ VFloat (S754_infinity false) ]);
      ("index", VInt (-1));
      ("object", VStr "embedding") ].


Definition scalar_parameters_kwargs : list (string * raw) :=
  [ ("name", RStr "lookup"); ("description", RStr "Looks a word up.");
    ("parameters", RInt 5) ].

Definition object_parameters_kwargs : list (string * raw) :=
  [ ("name", RStr "lookup"); ("description", RStr "Looks a word up.");
    ("parameters", RDict [ ("type", RInt 7); ("anything", RList []) ]) ].

(** ** Shapes of supplied values *)

Definition is_string (x : raw) : Prop := exists s, x = RStr s.

Definition is_mapping (x : raw) : Prop := exists d, x = RDict d.

(** What an optional field requires of its key: absent, [None], or a value
    with the property [P]. *)
Definition absent_or_none_or (P : raw -> Prop) (o : option raw) : Prop :=
  match o with
  | None | Some RNone => True
  | Some x => P x
  end.

(** A sequence every element of which validates against [t]. *)
Definition is_list_of (lax : Coercions) (t : ty) (x : raw) : Prop :=
  exists l, x = RList l /\ forallb (fun c => is_ok (validate lax t c)) l = true.

Definition accepts_bool (lax : Coercions) (x : raw) : bool :=
  match x with
  | RBool _ => true
  | _ => match lax_bool lax x with Some _ => true | None => false end
  end.

(** What a [NotRequired] key of a typed dictionary requires: absent, or a
    value with the property [P] ([None] is a value like any other). *)
Definition absent_or (P : raw -> Prop) (o : option raw) : Prop :=
  match o with
  | None => True
  | Some x => P x
  end.

(** Anything that can be iterated over. *)
Definition is_iterable (x : raw) : Prop :=
  match x with
  | RStr _ | RList _ | RDict _ => True
  | _ => False
  end.

(** ** Further sample inputs *)

(** Log-probabilities constructed with [content] explicitly [None]. *)
Definition null_content_logprobs : instance :=
  Instance "ChoiceLogprobs" (fields_of ChoiceLogprobs)
    [ "content" ]
    [ ("content", VNone); ("refusal", VNone) ].

(** A completion whose two choices both claim index 0. *)
Definition two_choices_kwargs : list (string * raw) :=
  [ ("id", RStr "cmpl-1");
    ("choices", RList [ RDict (choice_kwargs "stop"); RDict (choice_kwargs "length") ]);
    ("created", RInt 1700000000);
    ("model", RStr "m");
    ("object", RStr "chat.completion") ].

(** An envelope with no choice, a negative timestamp and a free [object]. *)
Definition bare_envelope_kwargs : list (string * raw) :=
  [ ("id", RStr ""); ("choices", RList []); ("created", RInt (-5));
    ("model", RStr ""); ("object", RStr "anything") ].

(** A message whose content holds a text part and a part of unknown type. *)
Definition mixed_content : list raw :=
  [ RDict [ ("type", RStr "text"); ("text", RStr "hello") ];
    RDict [ ("type", RStr "video") ] ].

Definition mixed_content_kwargs : list (string * raw) :=
  [ ("role", RStr "assistant"); ("content", RList mixed_content) ].

(** A tool call in the shape a model emits it. *)
Definition emitted_tool_call : list (string * raw) :=
  [ ("id", RStr "call_1"); ("type", RStr "function");
    ("function", RDict [ ("name", RStr "lookup"); ("arguments", RStr "not json") ]) ].

(** A tool-role request message. *)
Definition tool_message : list (string * raw) :=
  [ ("role", RStr "tool"); ("content", RStr "42"); ("tool_call_id", RStr "call_1") ].


(** A model with a field that is a typed dictionary, the default of which
    holds a key that the dictionary does not declare. *)
Definition Tagged : ty :=
  TModel "Tagged"
    [ field_default "part" MessageContentTextPart
        (RDict [ ("text", RStr ""); ("type", RStr "text"); ("note", RStr "n") ]) ].

(** An embedding built by [Embedding.model_construct()], without values. *)
Definition an_unset_embedding : instance :=
  Instance "Embedding" (fields_of Embedding) [] [].

(** An envelope whose [usage] gives token counts. *)
Definition usage_kwargs : list (string * raw) :=
  bare_envelope_kwargs ++ [ ("usage", RDict [ ("prompt_tokens", RInt 3) ]) ].

(** A completion message whose content is a list of one text part. *)
Definition parts_message_kwargs : list (string * raw) :=
  [ ("role", RStr "assistant");
    ("content", RList [ RDict [ ("type", RStr "text"); ("text", RStr "hello") ] ]) ].

(** Lax validation that reads the string of a decimal digit as that integer
    (one of the conversions the library makes), and an embedding payload that
    gives its index as such a string. *)
Definition digit_of (x : raw) : option Z :=
  match x with
  | RStr "7" => Some 7%Z
  | _ => None
  end.

Definition digit_coercion : Coercions :=
  {| lax_int := digit_of; lax_float := fun _ => None; lax_bool := fun _ => None |}.

Definition string_index_kwargs : list (string * raw) :=
  [ ("embedding", RList []); ("index", RStr "7"); ("object", RStr "embedding") ].

(** * Properties *)

(** ** Item lists *)

Lemma mem_In (k : string) (xs : list string) : mem k xs = true <-> In k xs.
Proof.
  unfold mem. rewrite existsb_exists. split.
  - intros [x [Hin Heq]]. apply String.eqb_eq in Heq. now subst.
  - intros Hin. exists k. split; [assumption | apply String.eqb_refl].
Qed.

Lemma mem_false_not_In (k : string) (xs : list string) : mem k xs = false <-> ~ In k xs.
Proof.
  rewrite <- mem_In. destruct (mem k xs); split; intros; congruence.
Qed.

Lemma lookup_Some_In {A : Type} (k : string) (d : list (string * A)) (v : A) :
  lookup k d = Some v -> In k (map fst d).
Proof.
  induction d as [|[k' v'] d IH]; simpl; [discriminate|].
  destruct (String.eqb k k') eqn:E; intros H.
  - apply String.eqb_eq in E. now left.
  - right. now apply IH.
Qed.

Lemma lookup_Some_In_item {A : Type} (k : string) (d : list (string * A)) (v : A) :
  lookup k d = Some v -> In (k, v) d.
Proof.
  induction d as [|[k' v'] d IH]; simpl; [discriminate|].
  destruct (String.eqb k k') eqn:E; intros H.
  - apply String.eqb_eq in E. injection H as ->. subst. now left.
  - right. now apply IH.
Qed.

Lemma In_lookup_Some {A : Type} (k : string) (d : list (string * A)) :
  In k (map fst d) -> exists v, lookup k d = Some v.
Proof.
  induction d as [|[k' v'] d IH]; simpl; [tauto|].
  intros [H|H]; destruct (String.eqb k k') eqn:E; eauto.
  subst. rewrite String.eqb_refl in E. discriminate.
Qed.

Lemma lookup_None_not_In {A : Type} (k : string) (d : list (string * A)) :
  lookup k d = None <-> ~ In k (map fst d).
Proof.
  split.
  - intros H Hin. destruct (In_lookup_Some k d Hin) as [v Hv]. congruence.
  - intros H. destruct (lookup k d) eqn:E; [|reflexivity].
    exfalso. apply H. eapply lookup_Some_In; eauto.
Qed.

Lemma lookup_update_same {A : Type} (k : string) (v : A) (d : list (string * A)) :
  lookup k (update k v d) = Some v.
Proof.
  induction d as [|[k' v'] d IH]; simpl.
  - now rewrite String.eqb_refl.
  - destruct (String.eqb k k') eqn:E; simpl.
    + now rewrite String.eqb_refl.
    + now rewrite E.
Qed.


Lemma keys_update_declared {A : Type} (k : string) (v : A) (d : list (string * A)) :
  In k (map fst d) -> map fst (update k v d) = map fst d.
Proof.
  induction d as [|[k' v'] d IH]; simpl; [tauto|].
  intros H. destruct (String.eqb k k') eqn:E; simpl.
  - apply String.eqb_eq in E. now subst.
  - f_equal. apply IH. destruct H as [H|H]; [|assumption].
    subst. rewrite String.eqb_refl in E. discriminate.
Qed.

Lemma keys_eqb_eq (xs ys : list string) : keys_eqb xs ys = true <-> xs = ys.
Proof.
  revert ys. induction xs as [|x xs IH]; intros [|y ys]; simpl;
    try (split; [discriminate | congruence]); [tauto|].
  rewrite andb_true_iff, String.eqb_eq, IH. split.
  - intros [-> ->]. reflexivity.
  - intros H. injection H as -> ->. tauto.
Qed.

(** ** What validation of a model yields *)

Lemma outcome_errors_tail (ko : string * field_outcome) (os : list (string * field_outcome)) :
  outcome_errors (ko :: os) = [] -> outcome_errors os = [].
Proof.
  destruct ko as [k [[w|e]|w| |]]; simpl; intros H; solve [assumption | discriminate].
Qed.

Lemma model_outcomes_keys lax fields d :
  map fst (model_outcomes lax fields d) = map fst fields.
Proof.
  unfold model_outcomes. rewrite map_map. apply map_ext.
  intros [k [t' dflt]]. reflexivity.
Qed.

Lemma model_outcomes_items_keys lax fields d :
  outcome_errors (model_outcomes lax fields d) = [] ->
  map fst (outcome_items (model_outcomes lax fields d)) = map fst fields.
Proof.
  induction fields as [|[k [t' dflt]] fields IH]; [reflexivity|].
  intros H. pose proof (outcome_errors_tail _ _ H) as Ht.
  specialize (IH Ht). cbn [model_outcomes map] in *.
  unfold model_field_outcome in *.
  destruct (lookup k d) as [x|].
  - destruct (validate lax t' x); simpl in *; [now f_equal | discriminate].
  - destruct dflt; simpl in *; [discriminate | now f_equal].
Qed.

Lemma model_outcomes_fields_set lax fields d k :
  In k (outcome_fields_set (model_outcomes lax fields d)) ->
  In k (map fst fields) /\ lookup k d <> None.
Proof.
  induction fields as [|[k' [t' dflt]] fields IH]; simpl; [tauto|].
  unfold model_field_outcome.
  destruct (lookup k' d) as [x|] eqn:E.
  - destruct (validate lax t' x); simpl.
    + intros [->|H]; [split; [now left | congruence]|].
      destruct (IH H); auto.
    + intros H. destruct (IH H); auto.
  - destruct dflt; simpl; intros H; destruct (IH H); auto.
Qed.

Lemma model_outcomes_defaulted lax fields d k t v :
  outcome_errors (model_outcomes lax fields d) = [] ->
  lookup k fields = Some (t, Default v) ->
  lookup k d = None ->
  lookup k (outcome_items (model_outcomes lax fields d)) = Some (of_raw v).
Proof.
  induction fields as [|[k' [t' dflt]] fields IH]; [discriminate|].
  intros Herr Hk Hd. pose proof (outcome_errors_tail _ _ Herr) as Ht.
  cbn [model_outcomes map lookup] in *. unfold model_field_outcome in *.
  destruct (String.eqb k k') eqn:E.
  - apply String.eqb_eq in E. subst k'. injection Hk as -> ->.
    rewrite Hd. simpl. now rewrite String.eqb_refl.
  - specialize (IH Ht Hk Hd).
    destruct (lookup k' d) as [x|].
    + destruct (validate lax t' x); simpl in *; [now rewrite E | discriminate].
    + destruct dflt; simpl in *; [discriminate | now rewrite E].
Qed.

Lemma validate_model_inv lax name fields d w :
  validate lax (TModel name fields) (RDict d) = Ok w ->
  outcome_errors (model_outcomes lax fields d) = [] /\
  w = VModel (Instance name fields
                (outcome_fields_set (model_outcomes lax fields d))
                (outcome_items (model_outcomes lax fields d))).
Proof.
  cbn [validate]. fold (model_outcomes lax fields d).
  destruct (outcome_errors (model_outcomes lax fields d)); [|discriminate].
  intros H. injection H as <-. split; reflexivity.
Qed.

Lemma validate_model_ok lax name fields d :
  outcome_errors (model_outcomes lax fields d) = [] ->
  validate lax (TModel name fields) (RDict d) =
  Ok (VModel (Instance name fields
                (outcome_fields_set (model_outcomes lax fields d))
                (outcome_items (model_outcomes lax fields d)))).
Proof.
  intros H. cbn [validate]. fold (model_outcomes lax fields d). now rewrite H.
Qed.

Lemma validate_model_raise lax name fields d k :
  In k (outcome_errors (model_outcomes lax fields d)) ->
  exists errs, validate lax (TModel name fields) (RDict d) = Raise (ValidationError errs)
               /\ In k errs.
Proof.
  intros H. cbn [validate]. fold (model_outcomes lax fields d).
  destruct (outcome_errors (model_outcomes lax fields d)) as [|e errs] eqn:E.
  - destruct H.
  - exists (e :: errs). split; [reflexivity | assumption].
Qed.

Lemma construct_model_inv lax Cls kwargs m :
  construct lax Cls kwargs = Ok (VModel m) ->
  exists name fields,
    Cls = TModel name fields /\
    outcome_errors (model_outcomes lax fields kwargs) = [] /\
    m = Instance name fields
          (outcome_fields_set (model_outcomes lax fields kwargs))
          (outcome_items (model_outcomes lax fields kwargs)).
Proof.
  destruct Cls; try (simpl; discriminate).
  unfold construct. intros H. apply validate_model_inv in H as [He Hw].
  exists name, fields. repeat split; [assumption | congruence].
Qed.

Lemma lookup_field_types (fields : list (string * (ty * default))) (k : string) :
  lookup k (map (fun f => (fst f, fst (snd f))) fields) =
  option_map fst (lookup k fields).
Proof.
  induction fields as [|[k' [t' dflt]] fields IH]; simpl; [reflexivity|].
  destruct (String.eqb k k'); [reflexivity | apply IH].
Qed.

(** A constructed instance is well formed. *)
Lemma construct_well_formed lax Cls kwargs m :
  class_ok Cls = true ->
  construct lax Cls kwargs = Ok (VModel m) ->
  well_formed m = true.
Proof.
  intros Hok H. apply construct_model_inv in H as (name & fields & -> & Herr & ->).
  unfold well_formed. cbn [__dict__ model_fields model_fields_set].
  rewrite !andb_true_iff. repeat split.
  - apply keys_eqb_eq. now rewrite model_outcomes_items_keys.
  - apply forallb_forall. intros k Hk. unfold declared. cbn [model_fields].
    apply mem_In. now apply model_outcomes_fields_set in Hk as [Hk _].
  - exact Hok.
Qed.

(** ** When a model is constructed *)

Section Construction.

Variable lax : Coercions.

Lemma outcome_errors_nil_iff fields d :
  outcome_errors (model_outcomes lax fields d) = [] <->
  forallb (field_accepts lax d) fields = true.
Proof.
  induction fields as [|[k [t dflt]] fields IH]; [simpl; tauto|].
  cbn [model_outcomes map forallb field_accepts]. fold (model_outcomes lax fields d).
  unfold model_field_outcome. rewrite andb_true_iff, <- IH.
  destruct (lookup k d) as [x|].
  - destruct (validate lax t x); simpl; split;
      solve [tauto | discriminate | intros [? ?]; discriminate].
  - destruct dflt; simpl; split;
      solve [tauto | discriminate | intros [? ?]; discriminate].
Qed.

Lemma outcome_errors_In fields d f :
  In f fields -> field_accepts lax d f = false ->
  In (fst f) (outcome_errors (model_outcomes lax fields d)).
Proof.
  induction fields as [|[k [t dflt]] fields IH]; [intros []|].
  intros Hin Hf. cbn [model_outcomes map]. fold (model_outcomes lax fields d).
  destruct Hin as [<-|Hin].
  - cbn [field_accepts] in Hf. unfold model_field_outcome.
    destruct (lookup k d) as [x|].
    + destruct (validate lax t x); [discriminate | now left].
    + destruct dflt; [now left | discriminate].
  - specialize (IH Hin Hf). unfold model_field_outcome.
    destruct (lookup k d) as [x|].
    + destruct (validate lax t x); simpl; [assumption | now right].
    + destruct dflt; simpl; [now right | assumption].
Qed.

(** A model is constructed exactly when each of its fields accepts. *)
Lemma validate_model_is_ok name fields d :
  is_ok (validate lax (TModel name fields) (RDict d)) =
  forallb (field_accepts lax d) fields.
Proof.
  destruct (forallb (field_accepts lax d) fields) eqn:E.
  - apply outcome_errors_nil_iff in E. now rewrite validate_model_ok.
  - cbn [validate]. fold (model_outcomes lax fields d).
    destruct (outcome_errors (model_outcomes lax fields d)) eqn:Eo; [|reflexivity].
    apply outcome_errors_nil_iff in Eo. congruence.
Qed.

Lemma model_rejects name fields d f :
  In f fields -> field_accepts lax d f = false ->
  exists errs,
    validate lax (TModel name fields) (RDict d) = Raise (ValidationError errs) /\
    In (fst f) errs.
Proof.
  intros Hin Hf. apply validate_model_raise. now apply outcome_errors_In.
Qed.

Lemma model_outcomes_supplied fields d k t dflt x :
  outcome_errors (model_outcomes lax fields d) = [] ->
  lookup k fields = Some (t, dflt) ->
  lookup k d = Some x ->
  exists w, validate lax t x = Ok w /\
            lookup k (outcome_items (model_outcomes lax fields d)) = Some w.
Proof.
  induction fields as [|[k' [t' dflt']] fields IH]; [discriminate|].
  intros Herr Hk Hd. pose proof (outcome_errors_tail _ _ Herr) as Ht.
  cbn [model_outcomes map lookup] in *. unfold model_field_outcome in *.
  destruct (String.eqb k k') eqn:E.
  - apply String.eqb_eq in E. subst k'. injection Hk as -> ->.
    rewrite Hd in *. destruct (validate lax t x) as [w|e]; [|discriminate].
    exists w. simpl. now rewrite String.eqb_refl.
  - destruct (IH Ht Hk Hd) as [w [Hw Hl]]. exists w. split; [assumption|].
    destruct (lookup k' d) as [x'|].
    + destruct (validate lax t' x'); simpl in *; [now rewrite E | discriminate].
    + destruct dflt'; simpl in *; [discriminate | now rewrite E].
Qed.

Lemma is_ok_false {A : Type} (r : result A) : is_ok r = false <-> exists e, r = Raise e.
Proof.
  destruct r; simpl; split; try discriminate; eauto.
  intros [e' H]; discriminate.
Qed.

Lemma all_ok_map_is_some {A : Type} (g : A -> result value) (l : list A) :
  (exists ws, all_ok (map g l) = Some ws) <-> forallb (fun x => is_ok (g x)) l = true.
Proof.
  induction l as [|x l IH]; simpl.
  - split; eauto.
  - destruct (g x) as [w|e]; simpl.
    + rewrite <- IH. destruct (all_ok (map g l)); split;
        solve [eauto | intros [? ?]; discriminate].
    + split; [intros [? ?]|]; discriminate.
Qed.

Lemma validate_literal_is_ok alts x :
  is_ok (validate lax (TLiteral alts) x) = true <->
  exists s, x = RStr s /\ mem s alts = true.
Proof.
  destruct x; simpl; try (split; [discriminate | intros [? [? ?]]; discriminate]).
  destruct (mem s alts) eqn:E; simpl; split; try discriminate; eauto.
  intros [s' [H Hm]]. injection H as <-. congruence.
Qed.

Lemma validate_int_is_ok x : is_ok (validate lax TInt x) = accepts_int lax x.
Proof.
  destruct x; simpl; try reflexivity; now destruct (lax_int lax _).
Qed.

Lemma validate_float_is_ok x : is_ok (validate lax TFloat x) = accepts_float lax x.
Proof.
  destruct x; simpl; try reflexivity; now destruct (lax_float lax _).
Qed.

Lemma validate_list_is_ok t x :
  is_ok (validate lax (TList t) x) = true <->
  exists l, x = RList l /\ forallb (fun y => is_ok (validate lax t y)) l = true.
Proof.
  destruct x; try (simpl; split; [discriminate | intros [? [? ?]]; discriminate]).
  cbn [validate]. pose proof (all_ok_map_is_some (validate lax t) l) as Hl.
  destruct (all_ok (map (validate lax t) l)) as [ws|]; simpl; split.
  - intros _. exists l. split; [reflexivity|]. apply Hl. now exists ws.
  - reflexivity.
  - discriminate.
  - intros [l' [H Hf]]. injection H as <-. apply Hl in Hf as [ws Hw]. discriminate.
Qed.

Lemma forallb_pointwise {A : Type} (f g : A -> bool) (l : list A) :
  (forall x, f x = g x) -> forallb f l = forallb g l.
Proof.
  intros H. induction l as [|x l IH]; simpl; [reflexivity|]. now rewrite H, IH.
Qed.

Lemma mem_singleton (s a : string) : mem s [a] = true <-> s = a.
Proof.
  unfold mem. simpl. rewrite orb_false_r. apply String.eqb_eq.
Qed.

End Construction.

(** ** The dual-access wrapper *)

Section Access.

Variable type_attr : string -> string -> option value.
Variable readonly_property : string -> string -> bool.
Variable object_setattr : instance -> string -> value -> result instance.

Lemma well_formed_keys (m : instance) :
  well_formed m = true -> map fst (__dict__ m) = map fst (model_fields m).
Proof.
  unfold well_formed. rewrite !andb_true_iff. intros [[H _] _].
  now apply keys_eqb_eq.
Qed.

Lemma well_formed_fields_set (m : instance) (k : string) :
  well_formed m = true -> In k (model_fields_set m) -> declared m k = true.
Proof.
  unfold well_formed. rewrite !andb_true_iff. intros [[_ H] _] Hin.
  rewrite forallb_forall in H. now apply H.
Qed.

Lemma well_formed_names (m : instance) (k : string) :
  well_formed m = true -> declared m k = true -> is_valid_field_name k = true.
Proof.
  unfold well_formed, declared. rewrite !andb_true_iff. intros [_ H] Hin.
  rewrite forallb_forall in H. apply H. now apply mem_In.
Qed.

Lemma contains_declared (m : instance) (k : string) :
  well_formed m = true -> __contains__ m k = true -> declared m k = true.
Proof.
  intros Hwf. unfold __contains__.
  destruct (mem k (model_fields_set m)) eqn:E.
  - intros _. apply well_formed_fields_set; [assumption | now apply mem_In].
  - destruct (lookup k (model_fields m)) eqn:El; [|discriminate].
    intros _. apply mem_In. eapply lookup_Some_In; eauto.
Qed.

Lemma declared_has_attribute (m : instance) (k : string) :
  well_formed m = true -> declared m k = true ->
  exists v, lookup k (__dict__ m) = Some v.
Proof.
  intros Hwf Hd. apply In_lookup_Some.
  rewrite (well_formed_keys m Hwf). now apply mem_In.
Qed.

Lemma undeclared_has_no_attribute (m : instance) (k : string) :
  well_formed m = true -> declared m k = false -> lookup k (__dict__ m) = None.
Proof.
  intros Hwf Hd. apply lookup_None_not_In.
  rewrite (well_formed_keys m Hwf). now apply mem_false_not_In.
Qed.

(** A key-write that succeeds on a declared field keeps the instance well
    formed. *)
Lemma setitem_well_formed (m m' : instance) (k : string) (v : value) :
  well_formed m = true -> is_valid_field_name k = true ->
  __setitem__ readonly_property object_setattr m k v = Ok m' -> well_formed m' = true.
Proof.
  intros Hwf Hv. unfold __setitem__, setattr. rewrite Hv. cbn [negb].
  destruct (mem k (map fst (model_fields m))) eqn:E;
    [|destruct (readonly_property (cls m) k); discriminate].
  intros H. injection H as <-.
  pose proof Hwf as Hwf'. unfold well_formed in Hwf'.
  rewrite !andb_true_iff in Hwf'. destruct Hwf' as [[H1 H2] H3].
  unfold well_formed. cbn [__dict__ model_fields model_fields_set].
  rewrite !andb_true_iff. repeat split; [| |assumption].
  - apply keys_eqb_eq. rewrite keys_update_declared.
    + now apply keys_eqb_eq.
    + apply keys_eqb_eq in H1. rewrite H1. now apply mem_In.
  - apply forallb_forall. intros k' Hk'. unfold declared. cbn [model_fields].
    unfold add in Hk'. destruct (mem k (model_fields_set m)).
    + rewrite forallb_forall in H2. now apply H2.
    + apply in_app_or in Hk' as [Hk'|[<-|[]]]; [|assumption].
      rewrite forallb_forall in H2. now apply H2.
Qed.

(** Every instance a program obtains is well formed. *)
Lemma reachable_well_formed (lax : Coercions) (m : instance) :
  reachable lax readonly_property object_setattr m -> well_formed m = true.
Proof.
  induction 1 as [Cls kwargs m Hok Hc | m m' k v _ IH Hk Hs].
  - now apply (construct_well_formed lax Cls kwargs).
  - now apply (setitem_well_formed m m' k v).
Qed.

(** C1. Presence rule.  For a model constructed from a payload that the class
    accepts and a declared field [k] that the payload does not supply, the
    field has a declared default, and: when that default is a value other
    than [None], [k in m] is true and [m.get(k)] returns the default,
    whatever fallback is passed; when the default is [None], [k in m] is
    false and [m.get(k, fallback)] returns the fallback. *)
Theorem presence_rule (lax : Coercions) (Cls : ty) (kwargs : list (string * raw))
    (m : instance) (k : string) (dflt : default) :
  construct lax Cls kwargs = Ok (VModel m) ->
  default_of Cls k = Some dflt ->
  lookup k kwargs = None ->
  exists v,
    dflt = Default v /\
    (v <> RNone ->
     __contains__ m k = true /\
     forall fallback, get type_attr m k fallback = Ok (of_raw v)) /\
    (v = RNone ->
     __contains__ m k = false /\
     forall fallback, get type_attr m k fallback = Ok fallback).
Proof.
  intros Hc Hd Hk.
  apply construct_model_inv in Hc as (name & fields & -> & Herr & ->).
  unfold default_of in Hd. cbn [fields_of] in Hd.
  destruct (lookup k fields) as [[t dflt']|] eqn:Ef; [|discriminate].
  cbn in Hd. injection Hd as ->.
  assert (Hv : exists v, dflt = Default v).
  { destruct dflt as [|v]; [|eauto].
    apply outcome_errors_nil_iff in Herr. rewrite forallb_forall in Herr.
    specialize (Herr _ (lookup_Some_In_item _ _ _ Ef)).
    cbn [field_accepts] in Herr. rewrite Hk in Herr. discriminate. }
  destruct Hv as [v ->]. exists v. split; [reflexivity|].
  assert (Hset : mem k (outcome_fields_set (model_outcomes lax fields kwargs)) = false).
  { apply mem_false_not_In. intros Hin.
    apply model_outcomes_fields_set in Hin as [_ Hin]. congruence. }
  assert (Hc : forall b, is_not_None (Default v) = b ->
                         __contains__
                           (Instance name fields
                              (outcome_fields_set (model_outcomes lax fields kwargs))
                              (outcome_items (model_outcomes lax fields kwargs))) k = b).
  { intros b Hb. unfold __contains__. cbn [model_fields_set model_fields].
    rewrite Hset, Ef. exact Hb. }
  split.
  - intros Hv.
    assert (Hin : is_not_None (Default v) = true) by (destruct v; simpl; congruence).
    split; [now apply Hc|].
    intros fallback. unfold get. rewrite (Hc true Hin).
    unfold __getitem__, getattr. cbn [__dict__].
    now rewrite (model_outcomes_defaulted lax fields kwargs k t v Herr Ef Hk).
  - intros ->. split; [now apply Hc|].
    intros fallback. unfold get. now rewrite (Hc false eq_refl).
Qed.

(** On a well-formed instance (one that validated construction produced,
    possibly followed by key-writes to declared fields), [m.get(k, d)]
    returns the attribute stored under [k] when [k in m] holds, and [d]
    otherwise. *)
Lemma get_on_well_formed (m : instance) (k : string) (d : value) :
  well_formed m = true ->
  (__contains__ m k = true ->
   exists v, lookup k (__dict__ m) = Some v /\ get type_attr m k d = Ok v) /\
  (__contains__ m k = false -> get type_attr m k d = Ok d).
Proof.
  intros Hwf. split; intros Hc.
  - destruct (declared_has_attribute m k Hwf (contains_declared m k Hwf Hc)) as [v Hv].
    exists v. split; [assumption|].
    unfold get. rewrite Hc. unfold __getitem__, getattr. now rewrite Hv.
  - unfold get. now rewrite Hc.
Qed.

(** What [model_construct] leaves in the instance dictionary. *)
Lemma construct_items_keys (fields : list (string * (ty * default)))
    (values : list (string * value)) (k : string) :
  In k (map fst (construct_items fields values)) -> In k (map fst fields).
Proof.
  induction fields as [|[k' [t' dflt]] fields IH]; [intros []|].
  cbn [construct_items map fst].
  destruct (lookup k' values) as [v|].
  - intros [H|H]; [now left | right; now apply IH].
  - destruct dflt as [|v].
    + intros H. right. now apply IH.
    + intros [H|H]; [now left | right; now apply IH].
Qed.

Lemma construct_items_unset (fields : list (string * (ty * default)))
    (values : list (string * value)) (k : string) (t : ty) :
  nodupb (map fst fields) = true ->
  lookup k fields = Some (t, PydanticUndefined) ->
  lookup k values = None ->
  lookup k (construct_items fields values) = None.
Proof.
  induction fields as [|[k' [t' dflt]] fields IH]; [discriminate|].
  cbn [map fst nodupb lookup construct_items]. rewrite andb_true_iff, negb_true_iff.
  intros [Hk' Hnd] Hf Hv.
  destruct (String.eqb k k') eqn:E.
  - apply String.eqb_eq in E. subst k'. injection Hf as -> ->. rewrite Hv.
    apply lookup_None_not_In. intros Hin.
    apply construct_items_keys in Hin. apply mem_In in Hin. congruence.
  - specialize (IH Hnd Hf Hv).
    destruct (lookup k' values) as [v|]; [cbn [lookup]; now rewrite E|].
    destruct dflt as [|v]; [assumption | cbn [lookup]; now rewrite E].
Qed.

(** C4 (defect).  A field that was never set and has no default is reported
    present, and [get] raises.  Let [m] be built by [Cls.model_construct]
    from values that leave out a field [k] declared without a default.  Then
    [k] is not in [model_fields_set] and [m] has no attribute [k]; yet
    [k in m] is true, because the default recorded for [k] is the marker
    [PydanticUndefined], which is not [None]; and [m.get(k, d)] raises
    [AttributeError] instead of returning [d]. *)
Theorem get_raises_on_unset_field (Cls : ty) (values : list (string * value))
    (m : instance) (k : string) (t : ty) (d : value) :
  model_construct Cls values = Ok m ->
  nodupb (map fst (fields_of Cls)) = true ->
  lookup k (fields_of Cls) = Some (t, PydanticUndefined) ->
  lookup k values = None ->
  mem k Subscriptable_methods = false ->
  type_attr (cls m) k = None ->
  mem k (model_fields_set m) = false /\
  lookup k (__dict__ m) = None /\
  __contains__ m k = true /\
  get type_attr m k d = Raise (AttributeError k).
Proof.
  destruct Cls; try (simpl; discriminate).
  cbn [model_construct fields_of]. intros H Hnd Hf Hv Hm Ht. injection H as <-.
  cbn [cls model_fields_set __dict__] in *.
  assert (Hset : mem k (filter (fun k0 => match lookup k0 values with
                                          | Some _ => true
                                          | None => false
                                          end) (map fst fields)) = false).
  { apply mem_false_not_In. intros Hin. apply filter_In in Hin as [_ Hin].
    now rewrite Hv in Hin. }
  pose proof (construct_items_unset fields values k t Hnd Hf Hv) as Hd.
  assert (Hc : __contains__
                 (Instance name fields
                    (filter (fun k0 => match lookup k0 values with
                                       | Some _ => true
                                       | None => false
                                       end) (map fst fields))
                    (construct_items fields values)) k = true).
  { unfold __contains__. cbn [model_fields_set model_fields]. now rewrite Hset, Hf. }
  repeat split; try assumption.
  unfold get. rewrite Hc. unfold __getitem__, getattr. cbn [__dict__ cls].
  now rewrite Hd, Hm, Ht.
Qed.

(** An undeclared key is never present. *)
Lemma undeclared_not_contained (m : instance) (k : string) :
  well_formed m = true -> declared m k = false -> __contains__ m k = false.
Proof.
  intros Hwf Hd. destruct (__contains__ m k) eqn:E; [|reflexivity].
  rewrite (contains_declared m k Hwf E) in Hd. discriminate.
Qed.

(** C5 (amended). Access under a key [k] that is not a declared field.  The
    read [m[k]] raises [AttributeError] when nothing answers to the name [k]:
    [m] has no attribute [k], [k] is not one of the methods of
    [Subscriptable], and the type provides no attribute [k].  The write
    [m[k] = v] raises for every [v] when [k] does not start with an
    underscore: [AttributeError] when [k] names a property of the type (such
    as [model_fields_set]), [ValueError] otherwise; the instance is left as
    it was, so no key is created.  Repeating either access gives the same
    failure. *)
Theorem undeclared_key_access (m : instance) (k : string) :
  declared m k = false ->
  (lookup k (__dict__ m) = None ->
   mem k Subscriptable_methods = false -> type_attr (cls m) k = None ->
   __getitem__ type_attr m k = Raise (AttributeError k) /\
   run type_attr readonly_property object_setattr m [Read k; Read k] =
     ([Raise (AttributeError k); Raise (AttributeError k)], m)) /\
  (is_valid_field_name k = true -> forall v,
   let e := if readonly_property (cls m) k then AttributeError k else ValueError k in
   __setitem__ readonly_property object_setattr m k v = Raise e /\
   run type_attr readonly_property object_setattr m [Write k v; Write k v] =
     ([Raise e; Raise e], m)).
Proof.
  intros Hd. split.
  - intros Ha Hm Ht.
    assert (H : __getitem__ type_attr m k = Raise (AttributeError k)).
    { unfold __getitem__, getattr. now rewrite Ha, Hm, Ht. }
    split; [assumption|]. cbn [run step]. now rewrite H.
  - intros Hv v e.
    assert (H : __setitem__ readonly_property object_setattr m k v = Raise e).
    { unfold __setitem__, setattr. rewrite Hv. cbn [negb].
      unfold declared in Hd. rewrite Hd. subst e.
      now destruct (readonly_property (cls m) k). }
    split; [assumption|]. cbn [run step]. rewrite H. cbn [run step]. now rewrite H.
Qed.

(** C9. Key-write on a declared field.  On a well-formed instance, for every
    declared field [k] and every value [v] whatsoever, [m[k] = v] succeeds and
    the read [m[k]] that follows returns [v]: the value is stored as given,
    nothing validates it. *)
Theorem declared_key_write (m : instance) (k : string) (v : value) :
  well_formed m = true ->
  declared m k = true ->
  exists m',
    __setitem__ readonly_property object_setattr m k v = Ok m' /\
    __getitem__ type_attr m' k = Ok v /\
    run type_attr readonly_property object_setattr m [Write k v; Read k] = ([Ok VNone; Ok v], m').
Proof.
  intros Hwf Hd.
  pose proof (well_formed_names m k Hwf Hd) as Hv.
  assert (Hs : __setitem__ readonly_property object_setattr m k v =
               Ok (Instance (cls m) (model_fields m) (add k (model_fields_set m))
                     (update k v (__dict__ m)))).
  { unfold __setitem__, setattr. rewrite Hv. cbn [negb].
    unfold declared in Hd. now rewrite Hd. }
  assert (Hg : __getitem__ type_attr
                 (Instance (cls m) (model_fields m) (add k (model_fields_set m))
                    (update k v (__dict__ m))) k = Ok v).
  { unfold __getitem__, getattr. cbn [__dict__]. now rewrite lookup_update_same. }
  eexists. split; [exact Hs|]. split; [exact Hg|].
  cbn [run step]. rewrite Hs. cbn [run step]. now rewrite Hg.
Qed.

End Access.


(** ** Construction-time validation of the response envelopes *)

Section Envelopes.

Variable lax : Coercions.

(** C6. [finish_reason] is a closed enumeration.  For [Completion.Choice] and
    [CompletionChunk.Choice] alike: with [finish_reason] a string outside
    "stop", "length", "tool_calls" construction raises a validation error
    that names [finish_reason], whatever the other arguments; with
    [finish_reason = "stop"] and every other field acceptable, construction
    succeeds and the instance holds "stop". *)
Theorem finish_reason_closed (Cls : ty) (kwargs : list (string * raw)) (s : string) :
  In Cls [Completion_Choice; CompletionChunk_Choice] ->
  lookup "finish_reason" kwargs = Some (RStr s) ->
  (mem s ["stop"; "length"; "tool_calls"] = false ->
   exists errs,
     construct lax Cls kwargs = Raise (ValidationError errs) /\
     In "finish_reason" errs) /\
  (s = "stop" ->
   (forall f, In f (fields_of Cls) -> fst f <> "finish_reason" ->
              field_accepts lax kwargs f = true) ->
   exists m,
     construct lax Cls kwargs = Ok (VModel m) /\
     lookup "finish_reason" (__dict__ m) = Some (VStr "stop")).
Proof.
  intros HCls Hk.
  assert (Hshape : exists name first,
             Cls = TModel name
                     [ first;
                       field "finish_reason" (TLiteral ["stop"; "length"; "tool_calls"]);
                       field "index" TInt;
                       field_default "logprobs" (TOptional ChoiceLogprobs) RNone ] /\
             fst first <> "finish_reason").
  { destruct HCls as [<-|[<-|[]]]; do 2 eexists; (split; [reflexivity|]);
      simpl; discriminate. }
  destruct Hshape as (name & first & -> & Hfirst). split.
  - intros Hs.
    apply (model_rejects lax name _ kwargs
             (field "finish_reason" (TLiteral ["stop"; "length"; "tool_calls"]))).
    + simpl. tauto.
    + cbn [field field_accepts]. rewrite Hk. cbn [validate]. now rewrite Hs.
  - intros -> Hothers. cbn [fields_of] in Hothers.
    assert (Hall : forallb (field_accepts lax kwargs)
                     [ first;
                       field "finish_reason" (TLiteral ["stop"; "length"; "tool_calls"]);
                       field "index" TInt;
                       field_default "logprobs" (TOptional ChoiceLogprobs) RNone ] = true).
    { cbn [forallb]. rewrite !andb_true_iff. repeat split.
      - apply Hothers; [simpl; tauto | assumption].
      - cbn [field field_accepts]. now rewrite Hk.
      - apply Hothers; [simpl; tauto | simpl; discriminate].
      - apply Hothers; [simpl; tauto | simpl; discriminate]. }
    apply outcome_errors_nil_iff in Hall.
    eexists. split.
    + unfold construct. now apply validate_model_ok.
    + cbn [__dict__].
      destruct first as [k1 [t1 d1]]. cbn [fst] in Hfirst.
      destruct (model_outcomes_supplied lax _ kwargs "finish_reason"
                  (TLiteral ["stop"; "length"; "tool_calls"]) PydanticUndefined
                  (RStr "stop") Hall) as [w [Hw Hl]].
      * cbn [lookup]. destruct (String.eqb "finish_reason" k1) eqn:E.
        -- apply String.eqb_eq in E. congruence.
        -- reflexivity.
      * assumption.
      * cbn in Hw. injection Hw as <-. exact Hl.
Qed.

(** C8 (amended). Construction of an [Embedding] succeeds exactly when
    [embedding] is a sequence each element of which is a float (finite or
    not) or converts to one, [index] is an integer (of either sign) or
    converts to one, and [object] is the string "embedding". *)
Theorem embedding_construction (kwargs : list (string * raw)) :
  is_ok (construct lax Embedding kwargs) = true <->
  (exists l, lookup "embedding" kwargs = Some (RList l) /\
             forallb (accepts_float lax) l = true) /\
  (exists i, lookup "index" kwargs = Some i /\ accepts_int lax i = true) /\
  lookup "object" kwargs = Some (RStr "embedding").
Proof.
  unfold construct, Embedding. rewrite validate_model_is_ok.
  cbn [forallb field field_accepts]. rewrite andb_true_r, !andb_true_iff.
  destruct (lookup "embedding" kwargs) as [e|];
    [|split; [intros [? _]; discriminate | intros [[? [? _]] _]; discriminate]].
  destruct (lookup "index" kwargs) as [i|];
    [|split; [intros [_ [? _]]; discriminate | intros [_ [[? [? _]] _]]; discriminate]].
  destruct (lookup "object" kwargs) as [o|];
    [|split; [intros [_ [_ ?]]; discriminate | intros [_ [_ ?]]; discriminate]].
  rewrite validate_list_is_ok, validate_int_is_ok, validate_literal_is_ok.
  split.
  - intros [[l [-> Hl]] [Hi [s [-> Hs]]]].
    apply mem_singleton in Hs. subst s. repeat split.
    + exists l. split; [reflexivity|].
      rewrite <- Hl. apply forallb_pointwise. intros y.
      now rewrite validate_float_is_ok.
    + exists i. tauto.
  - intros [[l [He Hl]] [[i' [Hi Hi']] Ho]].
    injection He as ->. injection Hi as ->. injection Ho as ->. repeat split.
    + exists l. split; [reflexivity|].
      rewrite <- Hl. apply forallb_pointwise. intros y.
      now rewrite validate_float_is_ok.
    + assumption.
    + exists "embedding". split; [reflexivity|]. now apply mem_singleton.
Qed.


End Envelopes.

(** ** Request-side typed dictionaries *)

Section TypedDicts.

Variable lax : Coercions.

Lemma typed_dict_errors_In fields d f :
  In f fields -> typed_dict_field_accepts lax d f = false ->
  In (fst f) (outcome_errors (typed_dict_outcomes lax fields d)).
Proof.
  induction fields as [|[k [required t]] fields IH]; [intros []|].
  intros Hin Hf. cbn [typed_dict_outcomes map]. fold (typed_dict_outcomes lax fields d).
  destruct Hin as [<-|Hin].
  - cbn [typed_dict_field_accepts] in Hf. unfold typed_dict_field_outcome.
    destruct (lookup k d) as [x|].
    + destruct (validate lax t x); [discriminate | now left].
    + destruct required; [now left | discriminate].
  - specialize (IH Hin Hf). unfold typed_dict_field_outcome.
    destruct (lookup k d) as [x|].
    + destruct (validate lax t x); simpl; [assumption | now right].
    + destruct required; simpl; [now right | assumption].
Qed.

Lemma typed_dict_rejects name fields d f :
  In f fields -> typed_dict_field_accepts lax d f = false ->
  exists errs,
    validate lax (TTypedDict name fields) (RDict d) = Raise (ValidationError errs) /\
    In (fst f) errs.
Proof.
  intros Hin Hf. pose proof (typed_dict_errors_In fields d f Hin Hf) as H.
  cbn [validate]. fold (typed_dict_outcomes lax fields d).
  destruct (outcome_errors (typed_dict_outcomes lax fields d)) as [|e errs].
  - destruct H.
  - exists (e :: errs). split; [reflexivity | assumption].
Qed.

(** [Dict[str, Any]] accepts every mapping and returns it as it is. *)
Lemma validate_dict_any (o : list (string * raw)) :
  validate lax (TDict TAny) (RDict o) = Ok (of_raw (RDict o)).
Proof.
  cbn [validate of_raw].
  assert (H : outcome_errors
                (map (fun kv : string * raw => (fst kv, Supplied (Ok (of_raw (snd kv))))) o) = []
              /\ outcome_items
                   (map (fun kv : string * raw => (fst kv, Supplied (Ok (of_raw (snd kv))))) o)
                 = map (fun kv => (fst kv, of_raw (snd kv))) o).
  { induction o as [|[k x] o [IH1 IH2]]; [split; reflexivity|].
    simpl. split; [assumption | now f_equal]. }
  destruct H as [-> ->]. reflexivity.
Qed.

(** ... and nothing but a mapping. *)
Lemma validate_dict_not_mapping (t : ty) (p : raw) :
  (forall o, p <> RDict o) -> is_ok (validate lax (TDict t) p) = false.
Proof.
  intros H. destruct p; try reflexivity. now destruct (H d).
Qed.

(** C7 (amended). [Function] is a typed dictionary: calling it builds the
    dictionary of its arguments and never fails, whatever [parameters] is.
    Its declared type is what requires a mapping there: validation against
    [Function] rejects a [parameters] value that is not a key/value object,
    naming that key, and accepts any key/value object unchanged, without
    looking inside. *)
Theorem function_parameters :
  (forall kwargs, construct lax Function kwargs = Ok (of_raw (RDict kwargs))) /\
  (forall d p,
     lookup "parameters" d = Some p -> (forall o, p <> RDict o) ->
     exists errs,
       validate lax Function (RDict d) = Raise (ValidationError errs) /\
       In "parameters" errs) /\
  (forall d n ds o,
     lookup "name" d = Some (RStr n) ->
     lookup "description" d = Some (RStr ds) ->
     lookup "parameters" d = Some (RDict o) ->
     (lookup "strict" d = None \/ exists b, lookup "strict" d = Some (RBool b)) ->
     exists items,
       validate lax Function (RDict d) = Ok (VDict items) /\
       lookup "parameters" items = Some (of_raw (RDict o))).
Proof.
  repeat split.
  - intros d p Hp Hnot.
    apply (typed_dict_rejects "Function" _ d (Required "parameters" FunctionParameters)).
    + simpl. tauto.
    + cbn [Required typed_dict_field_accepts]. rewrite Hp.
      now apply validate_dict_not_mapping.
  - intros d n ds o Hn Hd Hp Hs. unfold Function.
    cbn [validate map Required NotRequired]. unfold typed_dict_field_outcome.
    rewrite Hn, Hd, Hp. fold (validate lax (TDict TAny) (RDict o)).
    unfold FunctionParameters. rewrite validate_dict_any.
    destruct Hs as [-> | [b ->]]; eexists; split; reflexivity.
Qed.

(** The three content-part classes. *)
Lemma content_part_mismatch (name payload tag : string) (d : list (string * raw)) :
  lookup "type" d <> Some (RStr tag) ->
  is_ok (validate lax
           (TTypedDict name [ Required payload (TDict TAny);
                              Required "type" (TLiteral [tag]) ]) (RDict d)) = false.
Proof.
  intros H.
  destruct (typed_dict_rejects name
              [ Required payload (TDict TAny); Required "type" (TLiteral [tag]) ] d
              (Required "type" (TLiteral [tag]))) as [errs [-> _]].
  - simpl. tauto.
  - cbn [Required typed_dict_field_accepts].
    destruct (lookup "type" d) as [x|]; [|reflexivity].
    destruct (is_ok (validate lax (TLiteral [tag]) x)) eqn:E; [|reflexivity].
    apply validate_literal_is_ok in E as [s [-> Hs]].
    apply mem_singleton in Hs. congruence.
  - reflexivity.
Qed.

Lemma text_part_mismatch (d : list (string * raw)) :
  lookup "type" d <> Some (RStr "text") ->
  is_ok (validate lax MessageContentTextPart (RDict d)) = false.
Proof.
  intros H.
  destruct (typed_dict_rejects "MessageContentTextPart"
              [ Required "text" TStr; Required "type" (TLiteral ["text"]) ] d
              (Required "type" (TLiteral ["text"]))) as [errs [He _]].
  - simpl. tauto.
  - cbn [Required typed_dict_field_accepts].
    destruct (lookup "type" d) as [x|]; [|reflexivity].
    destruct (is_ok (validate lax (TLiteral ["text"]) x)) eqn:E; [|reflexivity].
    apply validate_literal_is_ok in E as [s [-> Hs]].
    apply mem_singleton in Hs. congruence.
  - unfold MessageContentTextPart. now rewrite He.
Qed.

Lemma union3 (a b c : ty) (v : raw) :
  validate lax (TUnion [a; b; c]) v =
  match validate lax a v with
  | Ok w => Ok w
  | Raise _ =>
      match validate lax b v with
      | Ok w => Ok w
      | Raise _ =>
          match validate lax c v with
          | Ok w => Ok w
          | Raise _ => Raise (ValidationError [])
          end
      end
  end.
Proof. reflexivity. Qed.

Lemma raise_of_not_ok (r : result value) (k : result value) :
  is_ok r = false ->
  match r with Ok w => Ok w | Raise _ => k end = k.
Proof. destruct r; [discriminate | reflexivity]. Qed.

End TypedDicts.

Section ContentParts.

Variable lax : Coercions.

Lemma payload_missing (name payload : string) (t t' : ty) (d : list (string * raw)) :
  lookup payload d = None ->
  is_ok (validate lax
           (TTypedDict name [ Required payload t; Required "type" t' ]) (RDict d)) = false.
Proof.
  intros H.
  destruct (typed_dict_rejects lax name [ Required payload t; Required "type" t' ] d
              (Required payload t)) as [errs [-> _]].
  - simpl. tauto.
  - cbn [Required typed_dict_field_accepts]. now rewrite H.
  - reflexivity.
Qed.

Lemma unknown_part_rejected (d : list (string * raw)) :
  lookup "type" d <> Some (RStr "image_url") ->
  lookup "type" d <> Some (RStr "input_audio") ->
  lookup "type" d <> Some (RStr "text") ->
  validate lax MessageContentPart (RDict d) = Raise (ValidationError []).
Proof.
  intros Hi Ha Ht. unfold MessageContentPart. rewrite union3.
  rewrite raise_of_not_ok by (now apply content_part_mismatch).
  rewrite raise_of_not_ok by (now apply content_part_mismatch).
  rewrite raise_of_not_ok by (now apply text_part_mismatch).
  reflexivity.
Qed.

(** At most one member of the union accepts a given part: the three [type]
    literals are distinct.  Trying the members from the left therefore
    returns what any other order would. *)
Lemma content_part_members_exclusive (d : list (string * raw)) :
  (is_ok (validate lax MessageContentImagePart (RDict d)) = true ->
   lookup "type" d = Some (RStr "image_url")) /\
  (is_ok (validate lax MessageContentAudioPart (RDict d)) = true ->
   lookup "type" d = Some (RStr "input_audio")) /\
  (is_ok (validate lax MessageContentTextPart (RDict d)) = true ->
   lookup "type" d = Some (RStr "text")).
Proof.
  assert (G : forall (o : option raw) (tag : string),
             (o <> Some (RStr tag) -> false = true) -> o = Some (RStr tag)).
  { intros o tag H.
    destruct o as [[ | b | z | f | s' | l | d' ]|];
      try (assert (C : false = true) by (apply H; discriminate); discriminate C).
    destruct (String.eqb s' tag) eqn:E.
    - apply String.eqb_eq in E. now subst.
    - assert (C : false = true); [|discriminate C].
      apply H. intros Heq. injection Heq as ->. rewrite String.eqb_refl in E.
      discriminate. }
  repeat split; intros H; apply G; intros Hne.
  - rewrite <- H. symmetry. now apply content_part_mismatch.
  - rewrite <- H. symmetry. now apply content_part_mismatch.
  - rewrite <- H. symmetry. now apply text_part_mismatch.
Qed.

(** C2 (amended). The three content-part classes are typed dictionaries:
    calling one builds the dictionary of its arguments and never fails,
    whatever [type] is and whether or not the payload key is there.  The
    declared type [MessageContentPart] is what tells the variants apart:
    validation against it accepts a part whose [type] is "text", "image_url"
    or "input_audio" and that carries the matching payload, and rejects a
    part whose [type] is none of the three or whose payload key for the
    declared [type] is missing. *)
Theorem content_part_construction :
  (forall Part kwargs,
     In Part [ MessageContentTextPart; MessageContentImagePart; MessageContentAudioPart ] ->
     construct lax Part kwargs = Ok (of_raw (RDict kwargs))) /\
  (forall d s,
     lookup "type" d = Some (RStr "text") -> lookup "text" d = Some (RStr s) ->
     validate lax MessageContentPart (RDict d) =
     Ok (VDict [ ("text", VStr s); ("type", VStr "text") ])) /\
  (forall d o,
     lookup "type" d = Some (RStr "image_url") -> lookup "image_url" d = Some (RDict o) ->
     validate lax MessageContentPart (RDict d) =
     Ok (VDict [ ("image_url", of_raw (RDict o)); ("type", VStr "image_url") ])) /\
  (forall d o,
     lookup "type" d = Some (RStr "input_audio") -> lookup "input_audio" d = Some (RDict o) ->
     validate lax MessageContentPart (RDict d) =
     Ok (VDict [ ("input_audio", of_raw (RDict o)); ("type", VStr "input_audio") ])) /\
  (forall d,
     (forall tag, In tag [ "text"; "image_url"; "input_audio" ] ->
                  lookup "type" d <> Some (RStr tag)) ->
     validate lax MessageContentPart (RDict d) = Raise (ValidationError [])) /\
  (forall d tag,
     In tag [ "text"; "image_url"; "input_audio" ] ->
     lookup "type" d = Some (RStr tag) -> lookup tag d = None ->
     validate lax MessageContentPart (RDict d) = Raise (ValidationError [])).
Proof.
  split; [|split; [|split; [|split; [|split]]]].
  - intros Part kwargs [<-|[<-|[<-|[]]]]; reflexivity.
  - intros d s Ht Hs. unfold MessageContentPart. rewrite union3.
    rewrite raise_of_not_ok by (apply content_part_mismatch; rewrite Ht; discriminate).
    rewrite raise_of_not_ok by (apply content_part_mismatch; rewrite Ht; discriminate).
    unfold MessageContentTextPart. cbn [validate map Required].
    unfold typed_dict_field_outcome. rewrite Ht, Hs. reflexivity.
  - intros d o Ht Hp. unfold MessageContentPart. rewrite union3.
    unfold MessageContentImagePart at 1. cbn [validate map Required].
    unfold typed_dict_field_outcome. rewrite Ht, Hp.
    fold (validate lax (TDict TAny) (RDict o)). rewrite validate_dict_any. reflexivity.
  - intros d o Ht Hp. unfold MessageContentPart. rewrite union3.
    rewrite raise_of_not_ok by (apply content_part_mismatch; rewrite Ht; discriminate).
    unfold MessageContentAudioPart at 1. cbn [validate map Required].
    unfold typed_dict_field_outcome. rewrite Ht, Hp.
    fold (validate lax (TDict TAny) (RDict o)). rewrite validate_dict_any. reflexivity.
  - intros d H. apply unknown_part_rejected; apply H; simpl; tauto.
  - intros d tag Htag Ht Hp. unfold MessageContentPart. rewrite union3.
    destruct Htag as [<-|[<-|[<-|[]]]].
    + rewrite raise_of_not_ok by (apply content_part_mismatch; rewrite Ht; discriminate).
      rewrite raise_of_not_ok by (apply content_part_mismatch; rewrite Ht; discriminate).
      rewrite raise_of_not_ok by (now apply payload_missing).
      reflexivity.
    + rewrite raise_of_not_ok by (now apply payload_missing).
      rewrite raise_of_not_ok by (apply content_part_mismatch; rewrite Ht; discriminate).
      rewrite raise_of_not_ok by (apply text_part_mismatch; rewrite Ht; discriminate).
      reflexivity.
    + rewrite raise_of_not_ok by (apply content_part_mismatch; rewrite Ht; discriminate).
      rewrite raise_of_not_ok by (now apply payload_missing).
      rewrite raise_of_not_ok by (apply text_part_mismatch; rewrite Ht; discriminate).
      reflexivity.
Qed.

(** Inside a response message the parts are validated when the content is
    consumed, not when the message is constructed. *)
Lemma content_parts_validated_on_consumption (bad : list (string * raw)) :
  lookup "type" bad = Some (RStr "video") ->
  exists m it,
    construct lax CompletionMessage
      [ ("role", RStr "assistant"); ("content", RList [ RDict bad ]) ] = Ok (VModel m) /\
    lookup "content" (__dict__ m) = Some it /\
    consume lax it = Raise (ValidationError []).
Proof.
  intros H. do 2 eexists. split; [reflexivity|]. split; [reflexivity|].
  cbn [consume map].
  rewrite unknown_part_rejected by (rewrite H; discriminate). reflexivity.
Qed.

End ContentParts.

(** ** Round trip *)

Section RoundTrip.

Variable lax : Coercions.

Lemma model_dump_items (m : instance) :
  model_dump m =
  VDict (written_items (map (fun f => (fst f, fst (snd f))) (model_fields m)) (__dict__ m)).
Proof. reflexivity. Qed.

Lemma lookup_written_items (fs : list (string * ty)) (items : list (string * value))
    (k : string) (w : value) (t : ty) :
  lookup k items = Some w -> lookup k fs = Some t ->
  lookup k (written_items fs items) = Some (dump_by w t).
Proof.
  intros Hi Hf. induction items as [|[k' x] items IH]; [discriminate|].
  cbn [written_items flat_map fst snd lookup] in *.
  destruct (String.eqb k k') eqn:E.
  - apply String.eqb_eq in E. subst k'. injection Hi as ->. rewrite Hf.
    cbn [app lookup]. now rewrite String.eqb_refl.
  - destruct (lookup k' fs); cbn [app lookup]; [rewrite E|]; now apply IH.
Qed.

Lemma lookup_written_items_undeclared (fs : list (string * ty))
    (items : list (string * value)) (k : string) :
  lookup k fs = None -> lookup k (written_items fs items) = None.
Proof.
  intros Hf. induction items as [|[k' x] items IH]; [reflexivity|].
  cbn [written_items flat_map fst snd].
  destruct (lookup k' fs) eqn:E'; cbn [app lookup]; [|exact IH].
  destruct (String.eqb k k') eqn:E; [|exact IH].
  apply String.eqb_eq in E. congruence.
Qed.

Lemma written_items_keys (fs : list (string * ty)) (items : list (string * value)) :
  (forall k, In k (map fst items) -> In k (map fst fs)) ->
  map fst (written_items fs items) = map fst items.
Proof.
  induction items as [|[k x] items IH]; [reflexivity|].
  intros H. cbn [written_items flat_map fst snd].
  destruct (In_lookup_Some k fs (H k (or_introl eq_refl))) as [t ->].
  cbn [app map fst]. f_equal. apply IH. intros k' Hk'. apply H. now right.
Qed.

Lemma dump_by_optional (w : value) (t : ty) : dump_by w (TOptional t) = dump_by w t.
Proof. unfold dump_by. cbn [resolve]. now destruct w. Qed.

Lemma dump_by_union_head (w : value) (t : ty) (ts : list ty) :
  head_matches t w = true -> dump_by w (TUnion (t :: ts)) = dump_by w t.
Proof. intros H. unfold dump_by. cbn [resolve]. now rewrite H. Qed.

Lemma all_ok_covers (t : ty) (l : list raw) :
  Forall (fun x => exists w, validate lax t x = Ok w /\ covers x (dump_by w t)) l ->
  exists ws, all_ok (map (validate lax t) l) = Some ws /\
             Forall2 covers l (map (fun w => dump_by w t) ws).
Proof.
  induction 1 as [|x l [w [Hw Ha]] _ [ws [Hws Hf]]].
  - exists []. split; [reflexivity | constructor].
  - exists (w :: ws). cbn [map all_ok]. rewrite Hw, Hws.
    split; [reflexivity | now constructor].
Qed.

(** A model whose every supplied field is restored by serialization: the
    payload is accepted, every declared key of the payload is written back
    under a value that covers the payload's, and nothing is written under a
    name the class does not declare. *)
Lemma model_payload_restored (name : string) (fields : list (string * (ty * default)))
    (d : list (string * raw)) :
  (forall k t dflt, In (k, (t, dflt)) fields ->
     match lookup k d with
     | Some x => exists w, validate lax t x = Ok w /\ covers x (dump_by w t)
     | None => exists v, dflt = Default v
     end) ->
  exists m items,
    validate lax (TModel name fields) (RDict d) = Ok (VModel m) /\
    cls m = name /\
    dump_by (VModel m) (TModel name fields) = VDict items /\
    model_dump m = VDict items /\
    (forall k x, lookup k d = Some x -> mem k (map fst fields) = true ->
                 exists y, lookup k items = Some y /\ covers x y) /\
    (forall k, mem k (map fst fields) = false -> lookup k items = None).
Proof.
  intros Hall.
  assert (Herr : outcome_errors (model_outcomes lax fields d) = []).
  { apply outcome_errors_nil_iff. apply forallb_forall.
    intros [k [t' dflt]] Hin. specialize (Hall _ _ _ Hin).
    cbn [field_accepts]. destruct (lookup k d) as [x|].
    - destruct Hall as [w [-> _]]. reflexivity.
    - destruct Hall as [v ->]. reflexivity. }
  exists (Instance name fields (outcome_fields_set (model_outcomes lax fields d))
            (outcome_items (model_outcomes lax fields d))),
         (written_items (map (fun f => (fst f, fst (snd f))) fields)
            (outcome_items (model_outcomes lax fields d))).
  split; [now apply validate_model_ok|].
  split; [reflexivity|]. split; [reflexivity|]. split; [reflexivity|].
  split.
  - intros k x Hx Hk. apply mem_In in Hk.
    destruct (In_lookup_Some k fields Hk) as [[t dflt] Ef].
    pose proof (Hall _ _ _ (lookup_Some_In_item _ _ _ Ef)) as Hk'.
    rewrite Hx in Hk'. destruct Hk' as [w [Hw Hc]].
    destruct (model_outcomes_supplied lax fields d k t dflt x Herr Ef Hx) as [w' [Hw' Hl]].
    assert (w' = w) by congruence. subst w'.
    exists (dump_by w t). split; [|assumption].
    apply lookup_written_items; [assumption|].
    now rewrite lookup_field_types, Ef.
  - intros k Hk. apply lookup_written_items_undeclared.
    rewrite lookup_field_types.
    apply mem_false_not_In in Hk. apply lookup_None_not_In in Hk. now rewrite Hk.
Qed.

(** Validation followed by serialization by the declared type restores a
    value that has the declared type. *)
Lemma exact_payload_restored (t : ty) :
  forall P, exact t P = true ->
  exists w, validate lax t P = Ok w /\ head_matches t w = true /\ covers P (dump_by w t).
Proof.
  induction t as [ | | | | | alts | t IH | t IH | t IH | t IH | ts IH
                   | name fields IH | name fields IH ] using ty_nested_ind;
    intros P Hc; cbn [exact] in Hc; try discriminate.
  - destruct P; try discriminate. eexists. repeat split; constructor.
  - destruct P; try discriminate. eexists. repeat split; constructor.
  - destruct P; try discriminate. eexists. repeat split; constructor.
  - destruct P; try discriminate. eexists. repeat split; constructor.
  - destruct P; try discriminate. cbn [validate]. rewrite Hc.
    eexists. split; [reflexivity|]. split; [exact Hc | constructor].
  - destruct P;
      try (destruct (IH _ Hc) as [w [Hw [Hh Ha]]]; exists w;
           split; [exact Hw|]; split;
           [cbn [head_matches]; rewrite Hh; now destruct w
           | now rewrite dump_by_optional]).
    exists VNone. repeat split; constructor.
  - destruct P; try discriminate.
    assert (H : Forall (fun x => exists w, validate lax t x = Ok w /\
                                           covers x (dump_by w t)) l).
    { apply Forall_forall. intros x Hx.
      rewrite forallb_forall in Hc. destruct (IH x (Hc x Hx)) as [w [Hw [_ Ha]]].
      now exists w. }
    apply all_ok_covers in H as [ws [Hws Hf]].
    exists (VList ws). cbn [validate]. rewrite Hws. split; [reflexivity|].
    split; [reflexivity|]. constructor. exact Hf.
  - destruct ts as [|t ts]; [discriminate|].
    inversion IH as [|? ? IHt _]; subst.
    destruct (IHt _ Hc) as [w [Hw [Hh Ha]]]. exists w.
    cbn [validate]. rewrite Hw. split; [reflexivity|]. split.
    + cbn [head_matches existsb]. now rewrite Hh.
    + now rewrite dump_by_union_head.
  - destruct P; try discriminate. apply andb_true_iff in Hc as [Hkeys Hc].
    destruct (model_payload_restored name fields d) as (m & items & Hv & Hn & Hd & _ & Hcov & _).
    { intros k t' dflt Hin.
      rewrite Forall_forall in IH. specialize (IH _ Hin). cbn [fst snd] in IH.
      rewrite forallb_forall in Hc. specialize (Hc _ Hin). cbn beta iota in Hc.
      destruct (lookup k d) as [x|].
      - destruct (IH x Hc) as [w [Hw [_ Ha]]]. now exists w.
      - destruct dflt; [discriminate | eauto]. }
    exists (VModel m). split; [exact Hv|]. split.
    + cbn [head_matches]. rewrite Hn. apply String.eqb_refl.
    + rewrite Hd. constructor. intros k x Hx. apply Hcov; [assumption|].
      rewrite forallb_forall in Hkeys.
      exact (Hkeys _ (lookup_Some_In_item _ _ _ Hx)).
Qed.

End RoundTrip.

Section Payloads.

Variable lax : Coercions.

(** Keys the class does not declare are ignored: two payloads that agree on
    the declared keys are validated alike. *)
Lemma unrecognized_keys_ignored name fields d d' :
  (forall k, In k (map fst fields) -> lookup k d = lookup k d') ->
  validate lax (TModel name fields) (RDict d) =
  validate lax (TModel name fields) (RDict d').
Proof.
  intros H. cbn [validate].
  fold (model_outcomes lax fields d). fold (model_outcomes lax fields d').
  assert (E : model_outcomes lax fields d = model_outcomes lax fields d').
  { unfold model_outcomes. apply map_ext_in. intros [k [t dflt]] Hin.
    unfold model_field_outcome. rewrite (H k); [reflexivity|].
    apply in_map_iff. now exists (k, (t, dflt)). }
  now rewrite E.
Qed.

Lemma response_models_class_ok (Cls : ty) :
  In Cls response_models -> class_ok Cls = true.
Proof.
  intros H. repeat (destruct H as [<-|H]; [reflexivity|]). destruct H.
Qed.

Lemma response_models_are_models (Cls : ty) :
  In Cls response_models -> exists name fields, Cls = TModel name fields.
Proof.
  intros H. repeat (destruct H as [<-|H]; [do 2 eexists; reflexivity|]). destruct H.
Qed.

(** C3 (amended). Round trip.  For every response model and every payload in
    canonical form for it (the value supplied for a declared field already
    has the declared type: nothing to convert, message content given as a
    string, nested mappings with declared keys only), the payload is accepted
    and serializing the instance gives a key/value representation that, under
    every key of the payload that the class declares, holds a value that
    covers the payload's: equal on every key present in it, at every level
    of nesting.  Under a key that the class does not declare, nothing is
    written back. *)
Theorem round_trip (Cls : ty) (kwargs : list (string * raw)) :
  In Cls response_models ->
  canonical Cls kwargs = true ->
  exists m items,
    construct lax Cls kwargs = Ok (VModel m) /\
    model_dump m = VDict items /\
    (forall k x, lookup k kwargs = Some x -> mem k (map fst (fields_of Cls)) = true ->
                 exists y, lookup k items = Some y /\ covers x y) /\
    (forall k, mem k (map fst (fields_of Cls)) = false -> lookup k items = None).
Proof.
  intros HCls Hc.
  destruct (response_models_are_models Cls HCls) as (name & fields & ->).
  unfold canonical in Hc. cbn [fields_of] in *.
  destruct (model_payload_restored lax name fields kwargs)
    as (m & items & Hv & _ & _ & Hd & Hcov & Hun).
  { intros k t dflt Hin.
    rewrite forallb_forall in Hc. specialize (Hc _ Hin). cbn beta iota in Hc.
    destruct (lookup k kwargs) as [x|].
    - destruct (exact_payload_restored lax t x Hc) as [w [Hw [_ Ha]]]. now exists w.
    - destruct dflt; [discriminate | eauto]. }
  exists m, items. repeat split; assumption.
Qed.

End Payloads.

(** ** The statements at sample inputs *)

Lemma presence_rule_witness :
  (construct no_coercion ChoiceLogprobs [] = Ok (VModel no_logprobs) /\
   default_of ChoiceLogprobs "content" = Some (Default RNone) /\
   __contains__ no_logprobs "content" = false /\
   forall fallback, get no_type_attr no_logprobs "content" fallback = Ok fallback) /\
  (construct no_coercion Page [ ("items", RList []) ] = Ok (VModel a_page) /\
   default_of Page "object" = Some (Default (RStr "list")) /\
   __contains__ a_page "object" = true /\
   forall fallback, get no_type_attr a_page "object" fallback = Ok (VStr "list")).
Proof.
  split.
  - split; [reflexivity|]. split; [reflexivity|].
    destruct (presence_rule no_type_attr no_coercion ChoiceLogprobs []
                no_logprobs "content" (Default RNone) eq_refl eq_refl eq_refl)
      as [v [Hv [_ H]]].
    apply H. now injection Hv as <-.
  - split; [reflexivity|]. split; [reflexivity|].
    destruct (presence_rule no_type_attr no_coercion Page [ ("items", RList []) ]
                a_page "object" (Default (RStr "list")) eq_refl eq_refl eq_refl)
      as [v [Hv [H _]]].
    injection Hv as <-. apply H. discriminate.
Defined.

Lemma get_raises_on_unset_field_witness :
  model_construct Embedding [] = Ok an_unset_embedding /\
  mem "index" (model_fields_set an_unset_embedding) = false /\
  lookup "index" (__dict__ an_unset_embedding) = None /\
  __contains__ an_unset_embedding "index" = true /\
  get no_type_attr an_unset_embedding "index" (VInt 0) = Raise (AttributeError "index").
Proof.
  split; [reflexivity|].
  apply (get_raises_on_unset_field no_type_attr Embedding [] an_unset_embedding
           "index" TInt (VInt 0)); reflexivity.
Defined.

Lemma undeclared_key_access_witness :
  declared an_embedding "note" = false /\
  __getitem__ no_type_attr an_embedding "note" = Raise (AttributeError "note") /\
  (forall v, __setitem__ base_properties plain_setattr an_embedding "note" v =
             Raise (ValueError "note")) /\
  declared an_embedding "model_fields_set" = false /\
  (forall v, __setitem__ base_properties plain_setattr an_embedding "model_fields_set" v =
             Raise (AttributeError "model_fields_set")).
Proof.
  split; [reflexivity|]. split; [|split; [|split; [reflexivity|]]].
  - exact (proj1 (proj1 (undeclared_key_access no_type_attr base_properties plain_setattr
                           an_embedding "note" eq_refl) eq_refl eq_refl eq_refl)).
  - intros v.
    exact (proj1 (proj2 (undeclared_key_access no_type_attr base_properties plain_setattr
                           an_embedding "note" eq_refl) eq_refl v)).
  - intros v.
    exact (proj1 (proj2 (undeclared_key_access no_type_attr base_properties plain_setattr
                           an_embedding "model_fields_set" eq_refl) eq_refl v)).
Defined.

Lemma declared_key_write_witness :
  well_formed an_embedding = true /\
  declared an_embedding "object" = true /\
  is_ok (validate no_coercion (TLiteral ["embedding"]) (RInt 5)) = false /\
  exists m',
    __setitem__ base_properties plain_setattr an_embedding "object" (VInt 5) = Ok m' /\
    __getitem__ no_type_attr m' "object" = Ok (VInt 5) /\
    run no_type_attr base_properties plain_setattr an_embedding
      [ Write "object" (VInt 5); Read "object" ] =
      ([ Ok VNone; Ok (VInt 5) ], m').
Proof.
  split; [reflexivity|]. split; [reflexivity|]. split; [reflexivity|].
  apply (declared_key_write no_type_attr base_properties plain_setattr an_embedding
           "object" (VInt 5));
    reflexivity.
Defined.

Lemma finish_reason_closed_witness :
  (exists errs,
     construct no_coercion Completion_Choice (choice_kwargs "content_filter") =
       Raise (ValidationError errs) /\ In "finish_reason" errs) /\
  (exists m,
     construct no_coercion Completion_Choice (choice_kwargs "stop") = Ok (VModel m) /\
     lookup "finish_reason" (__dict__ m) = Some (VStr "stop")).
Proof.
  split.
  - apply (proj1 (finish_reason_closed no_coercion Completion_Choice
                    (choice_kwargs "content_filter") "content_filter"
                    (or_introl eq_refl) eq_refl)).
    reflexivity.
  - apply (proj2 (finish_reason_closed no_coercion Completion_Choice
                    (choice_kwargs "stop") "stop" (or_introl eq_refl) eq_refl)).
    + reflexivity.
    + intros f [<-|[<-|[<-|[<-|[]]]]] _; reflexivity.
Defined.

Lemma embedding_construction_witness :
  is_ok (construct no_coercion Embedding embedding_kwargs) = true /\
  is_ok (construct no_coercion Embedding
           [ ("embedding", RList []); ("index", RInt 0); ("object", RStr "vector") ]) = false.
Proof.
  split.
  - apply (proj2 (embedding_construction no_coercion embedding_kwargs)).
    split; [eexists; split; reflexivity|].
    split; [eexists; split; reflexivity | reflexivity].
  - destruct (is_ok (construct no_coercion Embedding
                       [ ("embedding", RList []); ("index", RInt 0);
                         ("object", RStr "vector") ])) eqn:E; [|reflexivity].
    apply (proj1 (embedding_construction no_coercion _)) in E.
    destruct E as [_ [_ E]]. discriminate E.
Defined.


Lemma function_parameters_witness :
  (exists errs,
     validate no_coercion Function (RDict scalar_parameters_kwargs) =
       Raise (ValidationError errs) /\ In "parameters" errs) /\
  (exists items,
     validate no_coercion Function (RDict object_parameters_kwargs) = Ok (VDict items) /\
     lookup "parameters" items =
       Some (VDict [ ("type", VInt 7); ("anything", VList []) ])).
Proof.
  split.
  - apply (proj1 (proj2 (function_parameters no_coercion)) scalar_parameters_kwargs (RInt 5)).
    + reflexivity.
    + discriminate.
  - apply (proj2 (proj2 (function_parameters no_coercion)) object_parameters_kwargs
             "lookup" "Looks a word up." [ ("type", RInt 7); ("anything", RList []) ]);
      try reflexivity.
    left. reflexivity.
Defined.

Lemma content_part_construction_witness :
  validate no_coercion MessageContentPart
    (RDict [ ("type", RStr "text"); ("text", RStr "hello") ]) =
    Ok (VDict [ ("text", VStr "hello"); ("type", VStr "text") ]) /\
  validate no_coercion MessageContentPart
    (RDict [ ("type", RStr "video"); ("video", RStr "clip") ]) = Raise (ValidationError []) /\
  validate no_coercion MessageContentPart
    (RDict [ ("type", RStr "image_url") ]) = Raise (ValidationError []).
Proof.
  pose proof (content_part_construction no_coercion) as (_ & Htext & _ & _ & Hnone & Hmiss).
  split; [|split].
  - apply Htext; reflexivity.
  - apply Hnone. intros tag [<-|[<-|[<-|[]]]]; discriminate.
  - apply (Hmiss _ "image_url"); [simpl; tauto | reflexivity | reflexivity].
Defined.

Lemma round_trip_witness :
  (canonical Embedding annotated_embedding_kwargs = true /\
   exists m items,
     construct no_coercion Embedding annotated_embedding_kwargs = Ok (VModel m) /\
     model_dump m = VDict items /\
     (forall k x, lookup k annotated_embedding_kwargs = Some x ->
                  mem k (map fst (fields_of Embedding)) = true ->
                  exists y, lookup k items = Some y /\ covers x y) /\
     (forall k, mem k (map fst (fields_of Embedding)) = false -> lookup k items = None)) /\
  (canonical Completion two_choices_kwargs = true /\
   exists m items,
     construct no_coercion Completion two_choices_kwargs = Ok (VModel m) /\
     model_dump m = VDict items /\
     (forall k x, lookup k two_choices_kwargs = Some x ->
                  mem k (map fst (fields_of Completion)) = true ->
                  exists y, lookup k items = Some y /\ covers x y) /\
     (forall k, mem k (map fst (fields_of Completion)) = false -> lookup k items = None)).
Proof.
  split; (split; [reflexivity|]).
  - apply (round_trip no_coercion Embedding annotated_embedding_kwargs).
    + simpl. tauto.
    + reflexivity.
  - apply (round_trip no_coercion Completion two_choices_kwargs).
    + simpl. tauto.
    + reflexivity.
Defined.

(** ** Where the specification and the code part *)

(** A content part of an unknown [type] is constructed without complaint. *)
Lemma content_part_counterexample :
  construct no_coercion MessageContentTextPart [ ("type", RStr "video") ] =
  Ok (VDict [ ("type", VStr "video") ]).
Proof. reflexivity. Qed.

(** Four valid payloads that serialization does not give back.
    A key the class does not declare is accepted and is absent from the
    serialized instance.  The mapping given for [usage], a field of type
    [BaseModel], comes back empty.  Message content given as a list of parts
    comes back as the iterator that holds the parts unvalidated.  An index
    given as the string of a digit, which lax validation converts, comes
    back as the integer. *)
Lemma round_trip_counterexample :
  (construct no_coercion Embedding annotated_embedding_kwargs = Ok (VModel an_embedding) /\
   lookup "note" annotated_embedding_kwargs = Some (RStr "first") /\
   model_dump an_embedding =
     VDict [ ("embedding", VList [ VFloat (S754_finite false 3 (-1)); VFloat (S754_zero false) ]);
             ("index", VInt 0);
             ("object", VStr "embedding") ] /\
   ~ covers (RDict annotated_embedding_kwargs) (model_dump an_embedding)) /\
  (exists m items,
     construct no_coercion Completion usage_kwargs = Ok (VModel m) /\
     model_dump m = VDict items /\
     lookup "usage" usage_kwargs = Some (RDict [ ("prompt_tokens", RInt 3) ]) /\
     lookup "usage" items = Some (VDict []) /\
     ~ covers (RDict usage_kwargs) (VDict items)) /\
  (exists m items,
     construct no_coercion CompletionMessage parts_message_kwargs = Ok (VModel m) /\
     model_dump m = VDict items /\
     lookup "content" items =
       Some (VIter MessageContentPart
               [ RDict [ ("type", RStr "text"); ("text", RStr "hello") ] ]) /\
     ~ covers (RDict parts_message_kwargs) (VDict items)) /\
  (exists m items,
     construct digit_coercion Embedding string_index_kwargs = Ok (VModel m) /\
     model_dump m = VDict items /\
     lookup "index" string_index_kwargs = Some (RStr "7") /\
     lookup "index" items = Some (VInt 7) /\
     ~ covers (RDict string_index_kwargs) (VDict items)).
Proof.
  split; [|split; [|split]].
  - repeat split; try reflexivity.
    intros H. inversion H as [ | | | | | | d items Hk ]; subst.
    destruct (Hk "note" _ eq_refl) as [y [Hy _]]. discriminate Hy.
  - do 2 eexists. repeat split; try reflexivity.
    intros H. inversion H as [ | | | | | | d items Hk ]; subst.
    destruct (Hk "usage" _ eq_refl) as [y [Hy Hc]].
    vm_compute in Hy. injection Hy as <-.
    inversion Hc as [ | | | | | | d' items' Hk' ]; subst.
    destruct (Hk' "prompt_tokens" _ eq_refl) as [z [Hz _]]. discriminate Hz.
  - do 2 eexists. repeat split; try reflexivity.
    intros H. inversion H as [ | | | | | | d items Hk ]; subst.
    destruct (Hk "content" _ eq_refl) as [y [Hy Hc]].
    vm_compute in Hy. injection Hy as <-. inversion Hc.
  - do 2 eexists. repeat split; try reflexivity.
    intros H. inversion H as [ | | | | | | d items Hk ]; subst.
    destruct (Hk "index" _ eq_refl) as [y [Hy Hc]].
    vm_compute in Hy. injection Hy as <-. inversion Hc.
Qed.

(** With and without the undeclared key the instance is the same, so no
    serializer whatsoever could write the key back. *)
Lemma unrecognized_key_leaves_no_trace :
  construct no_coercion Embedding annotated_embedding_kwargs =
  construct no_coercion Embedding embedding_kwargs.
Proof. reflexivity. Qed.

(** Two undeclared keys.  Reading "get" succeeds: it answers with the method
    of that name.  Writing under "_note" succeeds as well: the name starts
    with an underscore, the base class hands it to the plain attribute write,
    and the key is there to be read afterwards. *)
Lemma undeclared_key_counterexample :
  (declared an_embedding "get" = false /\
   __getitem__ no_type_attr an_embedding "get" = Ok (VMethod "get")) /\
  (declared an_embedding "_note" = false /\
   __getitem__ no_type_attr an_embedding "_note" = Raise (AttributeError "_note") /\
   exists m',
     __setitem__ base_properties plain_setattr an_embedding "_note" (VInt 1) = Ok m' /\
     __getitem__ no_type_attr m' "_note" = Ok (VInt 1)).
Proof.
  split; [split; reflexivity|]. split; [reflexivity|]. split; [reflexivity|].
  eexists. split; reflexivity.
Qed.

(** A [Function] with a scalar for [parameters] is constructed without
    complaint. *)
Lemma function_parameters_counterexample :
  construct no_coercion Function scalar_parameters_kwargs =
  Ok (VDict [ ("name", VStr "lookup"); ("description", VStr "Looks a word up.");
              ("parameters", VInt 5) ]).
Proof. reflexivity. Qed.

(** An [Embedding] with a negative index and an infinite component is
    constructed. *)
Lemma embedding_counterexample :
  construct no_coercion Embedding odd_embedding_kwargs = Ok (VModel odd_embedding).
Proof. reflexivity. Qed.

(** * Further properties *)

(** ** Sets of names and item lists under a key-write *)

Lemma mem_app (k : string) (xs ys : list string) :
  mem k (xs ++ ys) = mem k xs || mem k ys.
Proof. unfold mem. apply existsb_app. Qed.

Lemma mem_add_same (k : string) (s : list string) : mem k (add k s) = true.
Proof.
  unfold add. destruct (mem k s) eqn:E; [assumption|].
  rewrite mem_app. cbn. now rewrite String.eqb_refl, orb_true_r.
Qed.


Lemma add_idempotent (k : string) (s : list string) : add k (add k s) = add k s.
Proof. unfold add at 1. now rewrite mem_add_same. Qed.

Lemma update_update {A : Type} (k : string) (v w : A) (d : list (string * A)) :
  update k w (update k v d) = update k w d.
Proof.
  induction d as [|[k' v'] d IH]; simpl.
  - now rewrite String.eqb_refl.
  - destruct (String.eqb k k') eqn:E; simpl.
    + now rewrite String.eqb_refl.
    + now rewrite E, IH.
Qed.

Lemma setitem_inv (readonly_property : string -> string -> bool)
    (object_setattr : instance -> string -> value -> result instance)
    (m m' : instance) (k : string) (v : value) :
  is_valid_field_name k = true ->
  __setitem__ readonly_property object_setattr m k v = Ok m' ->
  declared m k = true /\
  m' = Instance (cls m) (model_fields m) (add k (model_fields_set m))
         (update k v (__dict__ m)).
Proof.
  intros Hv. unfold __setitem__, setattr, declared. rewrite Hv. cbn [negb].
  destruct (mem k (map fst (model_fields m)));
    [|destruct (readonly_property (cls m) k); discriminate].
  intros H. injection H as <-. split; reflexivity.
Qed.

Lemma fields_set_of_supplied lax fields d k :
  outcome_errors (model_outcomes lax fields d) = [] ->
  In k (map fst fields) -> lookup k d <> None ->
  In k (outcome_fields_set (model_outcomes lax fields d)).
Proof.
  induction fields as [|[k' [t' dflt]] fields IH]; [intros _ []|].
  intros Herr Hin Hk. pose proof (outcome_errors_tail _ _ Herr) as Ht.
  cbn [model_outcomes map] in *. fold (model_outcomes lax fields d) in *.
  unfold model_field_outcome in *. cbn [fst] in Hin.
  destruct Hin as [->|Hin].
  - destruct (lookup k d) as [x|]; [|congruence].
    destruct (validate lax t' x); [now left | discriminate].
  - specialize (IH Ht Hin Hk).
    destruct (lookup k' d) as [x|].
    + destruct (validate lax t' x); simpl; [now right | assumption].
    + destruct dflt; simpl; assumption.
Qed.

(** ** Key-writes and presence *)

Section Writes.

Variable type_attr : string -> string -> option value.
Variable readonly_property : string -> string -> bool.
Variable object_setattr : instance -> string -> value -> result instance.

(** X1. A key-write makes the key present.  On a well-formed instance, after
    [m[k] = v] on a declared field, [k in m] holds and [m.get(k, d)] returns
    [v] whatever [d] is, also when [v] is [None] and also when the field had
    been left to its [None] default. *)
Theorem write_makes_present (m : instance) (k : string) (v d : value) :
  well_formed m = true ->
  declared m k = true ->
  exists m',
    __setitem__ readonly_property object_setattr m k v = Ok m' /\
    __contains__ m' k = true /\
    get type_attr m' k d = Ok v.
Proof.
  intros Hwf Hd.
  pose proof (well_formed_names m k Hwf Hd) as Hv.
  exists (Instance (cls m) (model_fields m) (add k (model_fields_set m))
            (update k v (__dict__ m))).
  assert (Hc : __contains__
                 (Instance (cls m) (model_fields m) (add k (model_fields_set m))
                    (update k v (__dict__ m))) k = true).
  { unfold __contains__. cbn [model_fields_set]. now rewrite mem_add_same. }
  split; [|split; [exact Hc|]].
  - unfold __setitem__, setattr. rewrite Hv. cbn [negb].
    unfold declared in Hd. now rewrite Hd.
  - unfold get. rewrite Hc. unfold __getitem__, getattr. cbn [__dict__].
    now rewrite lookup_update_same.
Qed.


(** X3. The last write wins, and writing twice is writing once.  Two
    successive key-writes to the same field leave the instance that the
    second write alone would have produced; when both write the same value,
    the second changes nothing. *)
Theorem last_write_wins (m m1 m2 : instance) (k : string) (v w : value) :
  is_valid_field_name k = true ->
  __setitem__ readonly_property object_setattr m k v = Ok m1 ->
  __setitem__ readonly_property object_setattr m1 k w = Ok m2 ->
  __setitem__ readonly_property object_setattr m k w = Ok m2 /\ (v = w -> m2 = m1).
Proof.
  intros Hv H1 H2.
  apply setitem_inv in H1 as [Hd ->]; [|assumption].
  apply setitem_inv in H2 as [_ ->]; [|assumption].
  cbn [cls model_fields model_fields_set __dict__].
  rewrite add_idempotent, update_update. split.
  - unfold __setitem__, setattr. rewrite Hv. cbn [negb].
    unfold declared in Hd. now rewrite Hd.
  - intros ->. reflexivity.
Qed.

(** X4. [get] sees fields only.  On a well-formed instance the names of the
    methods of [Subscriptable] (such as "get") are not declared fields: the
    subscript [m[k]] answers with the bound method, while [k in m] is false
    and [m.get(k, d)] returns [d]. *)
Theorem get_sees_fields_only (m : instance) (k : string) (d : value) :
  well_formed m = true ->
  declared m k = false ->
  mem k Subscriptable_methods = true ->
  __getitem__ type_attr m k = Ok (VMethod k) /\
  __contains__ m k = false /\
  get type_attr m k d = Ok d.
Proof.
  intros Hwf Hd Hm.
  pose proof (undeclared_not_contained m k Hwf Hd) as Hc.
  split; [|split; [exact Hc|]].
  - unfold __getitem__, getattr.
    now rewrite (undeclared_has_no_attribute m k Hwf Hd), Hm.
  - unfold get. now rewrite Hc.
Qed.

(** X5. What construction and key-writes preserve.  Every instance a program
    obtains has exactly its declared fields as attributes, in declaration
    order; [model_fields_set] names declared fields only; and every key for
    which [k in m] holds can be read. *)
Theorem instance_invariant (lax : Coercions) (m : instance) :
  reachable lax readonly_property object_setattr m ->
  map fst (__dict__ m) = map fst (model_fields m) /\
  (forall k, In k (model_fields_set m) -> In k (map fst (model_fields m))) /\
  (forall k, __contains__ m k = true -> exists v, __getitem__ type_attr m k = Ok v).
Proof.
  intros Hr. pose proof (reachable_well_formed readonly_property object_setattr lax m Hr) as Hwf.
  split; [now apply well_formed_keys|]. split.
  - intros k Hk. apply mem_In. now apply (well_formed_fields_set m k Hwf).
  - intros k Hc.
    destruct (declared_has_attribute m k Hwf (contains_declared m k Hwf Hc)) as [v Hv].
    exists v. unfold __getitem__, getattr. now rewrite Hv.
Qed.

End Writes.

(** ** Presence after construction *)

Section PresenceAfterConstruction.

Variable lax : Coercions.
Variable type_attr : string -> string -> option value.

Lemma default_of_declared (name : string) (fields : list (string * (ty * default)))
    (k : string) :
  default_of (TModel name fields) k <> None <-> In k (map fst fields).
Proof.
  unfold default_of. cbn [fields_of]. split.
  - destruct (lookup k fields) as [x|] eqn:E; [|intros H; now destruct H].
    intros _. eapply lookup_Some_In; eauto.
  - intros Hin. destruct (In_lookup_Some k fields Hin) as [x ->]. discriminate.
Qed.

(** X6. Which keys are present after construction.  On a constructed
    instance, [k in m] holds exactly when [k] is a declared field that the
    payload supplied, or a declared field whose default is a value other than
    [None].  A key of the payload that the class does not declare is not
    present. *)
Theorem contains_after_construction (Cls : ty) (kwargs : list (string * raw))
    (m : instance) (k : string) :
  construct lax Cls kwargs = Ok (VModel m) ->
  __contains__ m k = true <->
  (default_of Cls k <> None /\ lookup k kwargs <> None) \/
  (exists v, default_of Cls k = Some (Default v) /\ v <> RNone).
Proof.
  intros Hc.
  apply construct_model_inv in Hc as (name & fields & -> & Herr & ->).
  unfold __contains__. cbn [model_fields_set model_fields].
  destruct (mem k (outcome_fields_set (model_outcomes lax fields kwargs))) eqn:Es.
  - apply mem_In in Es. apply model_outcomes_fields_set in Es as [Hin Hk].
    split; [|reflexivity]. intros _. left. split; [|assumption].
    now apply default_of_declared.
  - apply mem_false_not_In in Es.
    unfold default_of. cbn [fields_of].
    destruct (lookup k fields) as [[t dflt]|] eqn:Ef; cbn [option_map snd].
    + assert (Hk : lookup k kwargs = None).
      { destruct (lookup k kwargs) eqn:Ek; [|reflexivity].
        exfalso. apply Es. apply fields_set_of_supplied; [assumption| |congruence].
        eapply lookup_Some_In; eauto. }
      destruct dflt as [|v].
      * exfalso. apply outcome_errors_nil_iff in Herr. rewrite forallb_forall in Herr.
        specialize (Herr _ (lookup_Some_In_item _ _ _ Ef)).
        cbn [field_accepts] in Herr. rewrite Hk in Herr. discriminate.
      * split.
        -- intros Hn. right. exists v. split; [reflexivity|].
           intros ->. discriminate.
        -- intros [[_ Hs] | [v' [Hv' Hn]]]; [congruence|].
           injection Hv' as <-. destruct v; simpl; congruence.
    + split; [discriminate|].
      intros [[Hd _] | [v [Hv _]]]; [now destruct Hd | discriminate].
Qed.

(** X7. An explicit [None] is present, an omitted key is not.  When the
    payload supplies [None] for an optional field, [k in m] holds and
    [m.get(k, fallback)] returns [None], not the fallback: the instance
    tells a field that was set to [None] from one that was left out. *)
Theorem explicit_none_is_present (Cls : ty) (kwargs : list (string * raw))
    (m : instance) (k : string) (t : ty) (dflt : default) (fallback : value) :
  construct lax Cls kwargs = Ok (VModel m) ->
  lookup k (fields_of Cls) = Some (TOptional t, dflt) ->
  lookup k kwargs = Some RNone ->
  __contains__ m k = true /\ get type_attr m k fallback = Ok VNone.
Proof.
  intros Hc Hf Hk.
  apply construct_model_inv in Hc as (name & fields & -> & Herr & ->).
  cbn [fields_of] in Hf.
  assert (Hin : __contains__
                  (Instance name fields
                     (outcome_fields_set (model_outcomes lax fields kwargs))
                     (outcome_items (model_outcomes lax fields kwargs))) k = true).
  { unfold __contains__. cbn [model_fields_set].
    assert (Hs : mem k (outcome_fields_set (model_outcomes lax fields kwargs)) = true).
    { apply mem_In. apply fields_set_of_supplied; [assumption| |congruence].
      eapply lookup_Some_In; eauto. }
    now rewrite Hs. }
  split; [exact Hin|].
  destruct (model_outcomes_supplied lax fields kwargs k (TOptional t) dflt RNone
              Herr Hf Hk) as [w [Hw Hl]].
  cbn in Hw. injection Hw as <-.
  unfold get. rewrite Hin. unfold __getitem__, getattr. cbn [__dict__].
  now rewrite Hl.
Qed.

End PresenceAfterConstruction.

(** ** What each response class accepts *)

Section Acceptance.

Variable lax : Coercions.

Lemma all_ok_map_Forall2 {A : Type} (g : A -> result value) (l : list A) (ws : list value) :
  all_ok (map g l) = Some ws -> Forall2 (fun x w => g x = Ok w) l ws.
Proof.
  revert ws. induction l as [|x l IH]; intros ws; cbn [map all_ok].
  - intros H. injection H as <-. constructor.
  - destruct (g x) as [w|e] eqn:E; [|discriminate].
    destruct (all_ok (map g l)) as [ws'|]; [|discriminate].
    intros H. injection H as <-. constructor; [assumption | now apply IH].
Qed.

Lemma validate_list_inv (t : ty) (x : raw) (w : value) :
  validate lax (TList t) x = Ok w ->
  exists l ws, x = RList l /\ w = VList ws /\
               Forall2 (fun c w' => validate lax t c = Ok w') l ws.
Proof.
  destruct x; try discriminate. cbn [validate].
  destruct (all_ok (map (validate lax t) l)) as [ws|] eqn:E; [|discriminate].
  intros H. injection H as <-. exists l, ws.
  repeat split. now apply all_ok_map_Forall2.
Qed.

Lemma missing_required_field name fields d k t :
  lookup k fields = Some (t, PydanticUndefined) ->
  lookup k d = None ->
  exists errs,
    validate lax (TModel name fields) (RDict d) = Raise (ValidationError errs) /\
    In k errs.
Proof.
  intros Hf Hk.
  apply (model_rejects lax name fields d (k, (t, PydanticUndefined))).
  - now apply lookup_Some_In_item.
  - cbn [field_accepts]. now rewrite Hk.
Qed.

(** X8. Keys the class does not declare do not matter.  Two payloads that
    give the same value to every declared field construct the same instance,
    or fail alike: undeclared keys can be added, removed or changed without
    effect. *)
Theorem undeclared_keys_do_not_matter (name : string)
    (fields : list (string * (ty * default))) (kwargs kwargs' : list (string * raw)) :
  (forall k, default_of (TModel name fields) k <> None ->
             lookup k kwargs = lookup k kwargs') ->
  construct lax (TModel name fields) kwargs = construct lax (TModel name fields) kwargs'.
Proof.
  intros H. unfold construct. apply unrecognized_keys_ignored.
  intros k Hin. apply H. now apply default_of_declared.
Qed.

(** X9. A required field cannot be left out.  For every model class and every
    field declared without a default, a payload that lacks the key is refused
    with a validation error that names the field, whatever else the payload
    holds. *)
Theorem required_field_missing (Cls : ty) (kwargs : list (string * raw)) (k : string) :
  default_of Cls k = Some PydanticUndefined ->
  lookup k kwargs = None ->
  exists errs,
    construct lax Cls kwargs = Raise (ValidationError errs) /\ In k errs.
Proof.
  intros Hd Hk. destruct Cls; try discriminate Hd.
  unfold default_of in Hd. cbn [fields_of] in Hd.
  destruct (lookup k fields) as [[t dflt]|] eqn:Ef; [|discriminate].
  cbn in Hd. injection Hd as ->.
  unfold construct. now apply (missing_required_field name fields kwargs k t).
Qed.

(** X10. An omitted optional field reads as its default.  On a constructed
    instance, a field with a declared default that the payload left out is
    an attribute all the same: the subscript [m[k]] returns the default.
    When the default is [None] (as it is for every optional field of the
    file) [m.get(k, fallback)] returns the fallback where [m[k]] returns
    [None]; when the default is another value, [m.get(k, fallback)] returns
    the default as well. *)
Theorem omitted_field_reads_default (type_attr : string -> string -> option value)
    (Cls : ty) (kwargs : list (string * raw)) (m : instance) (k : string) (v : raw) :
  construct lax Cls kwargs = Ok (VModel m) ->
  default_of Cls k = Some (Default v) ->
  lookup k kwargs = None ->
  __getitem__ type_attr m k = Ok (of_raw v) /\
  forall fallback,
    get type_attr m k fallback =
    Ok (match v with RNone => fallback | _ => of_raw v end).
Proof.
  intros Hc Hd Hk.
  apply construct_model_inv in Hc as (name & fields & -> & Herr & ->).
  unfold default_of in Hd. cbn [fields_of] in Hd.
  destruct (lookup k fields) as [[t dflt]|] eqn:Ef; [|discriminate].
  cbn in Hd. injection Hd as ->.
  assert (Hg : __getitem__ type_attr
                 (Instance name fields
                    (outcome_fields_set (model_outcomes lax fields kwargs))
                    (outcome_items (model_outcomes lax fields kwargs))) k = Ok (of_raw v)).
  { unfold __getitem__, getattr. cbn [__dict__].
    now rewrite (model_outcomes_defaulted lax fields kwargs k t v Herr Ef Hk). }
  split; [exact Hg|].
  intros fallback. unfold get, __contains__. cbn [model_fields_set model_fields].
  assert (Hset : mem k (outcome_fields_set (model_outcomes lax fields kwargs)) = false).
  { apply mem_false_not_In. intros Hin.
    apply model_outcomes_fields_set in Hin as [_ Hin]. congruence. }
  rewrite Hset, Ef. cbn [snd].
  destruct v; cbn [is_not_None]; solve [reflexivity | exact Hg].
Qed.

(** X11. Choices are kept as they come.  When a [Completion] or a
    [CompletionChunk] is constructed, [choices] is a sequence and the
    instance holds, in the same order and number, the choice constructed
    from each element; the [index] of a choice is the integer its payload
    gave, never its position. *)
Theorem choices_kept_in_order (Cls Choice : ty) (kwargs : list (string * raw))
    (m : instance) :
  In (Cls, Choice) [ (Completion, Completion_Choice);
                     (CompletionChunk, CompletionChunk_Choice) ] ->
  construct lax Cls kwargs = Ok (VModel m) ->
  exists cs ws,
    lookup "choices" kwargs = Some (RList cs) /\
    lookup "choices" (__dict__ m) = Some (VList ws) /\
    Forall2 (fun c w =>
               validate lax Choice c = Ok w /\
               forall d i, c = RDict d -> lookup "index" d = Some (RInt i) ->
                           exists mw, w = VModel mw /\
                                      lookup "index" (__dict__ mw) = Some (VInt i))
            cs ws.
Proof.
  intros HCls Hc.
  assert (Hshape : exists name first rest,
             Cls = TModel name (first :: field "choices" (TList Choice) :: rest) /\
             fst first = "id" /\
             exists cname cfirst,
               Choice = TModel cname
                          [ cfirst;
                            field "finish_reason" (TLiteral ["stop"; "length"; "tool_calls"]);
                            field "index" TInt;
                            field_default "logprobs" (TOptional ChoiceLogprobs) RNone ] /\
               (fst cfirst = "message" \/ fst cfirst = "delta")).
  { destruct HCls as [H|[H|[]]]; injection H as <- <-;
      do 3 eexists; (split; [reflexivity|]); (split; [reflexivity|]);
      do 2 eexists; (split; [reflexivity|]); simpl; tauto. }
  destruct Hshape as (name & first & rest & -> & Hfirst & cname & cfirst & -> & Hcf).
  apply construct_model_inv in Hc as (name' & fields' & Heq & Herr & ->).
  injection Heq as <- <-.
  destruct first as [k1 [t1 d1]]. cbn [fst] in Hfirst. subst k1.
  destruct (lookup "choices" kwargs) as [x|] eqn:Ex.
  - destruct (model_outcomes_supplied lax _ kwargs "choices" _ PydanticUndefined x
                Herr eq_refl Ex) as [w [Hw Hl]].
    apply validate_list_inv in Hw as (cs & ws & -> & -> & Hf).
    exists cs, ws. split; [reflexivity|]. split; [exact Hl|].
    eapply Forall2_impl; [|exact Hf].
    intros c w Hcw. split; [exact Hcw|].
    intros d i -> Hi.
    apply validate_model_inv in Hcw as [Herr' ->].
    eexists. split; [reflexivity|]. cbn [__dict__].
    destruct cfirst as [kc [tc dc]]. cbn [fst] in Hcf.
    destruct (model_outcomes_supplied lax _ d "index" TInt PydanticUndefined (RInt i)
                Herr') as [w' [Hw' Hl']].
    + cbn [lookup field]. destruct Hcf as [-> | ->]; reflexivity.
    + assumption.
    + cbn in Hw'. injection Hw' as <-. exact Hl'.
  - exfalso.
    destruct (missing_required_field name
                ((("id", (t1, d1)) :: field "choices" (TList
                    (TModel cname
                       [ cfirst;
                         field "finish_reason" (TLiteral ["stop"; "length"; "tool_calls"]);
                         field "index" TInt;
                         field_default "logprobs" (TOptional ChoiceLogprobs) RNone ])) :: rest))
                kwargs "choices" _ eq_refl Ex) as [errs [He _]].
    rewrite validate_model_ok in He by assumption. discriminate.
Qed.

End Acceptance.

Section FieldAcceptance.

Variable lax : Coercions.

Lemma validate_str_is_ok (x : raw) : is_ok (validate lax TStr x) = true <-> is_string x.
Proof.
  unfold is_string. destruct x; simpl; split; try discriminate; eauto;
    intros [s' H]; discriminate.
Qed.

Lemma validate_optional_is_ok (t : ty) (x : raw) :
  is_ok (validate lax (TOptional t) x) = true <->
  absent_or_none_or (fun y => is_ok (validate lax t y) = true) (Some x).
Proof. destruct x; cbn [validate absent_or_none_or]; simpl; tauto. Qed.

Lemma absent_or_none_or_iff (P Q : raw -> Prop) (o : option raw) :
  (forall x, P x <-> Q x) -> absent_or_none_or P o <-> absent_or_none_or Q o.
Proof. intros H. destruct o as [[]|]; simpl; solve [tauto | apply H]. Qed.

Lemma accepts_required (k : string) (t : ty) (d : list (string * raw)) :
  field_accepts lax d (field k t) = true <->
  exists x, lookup k d = Some x /\ is_ok (validate lax t x) = true.
Proof.
  cbn [field field_accepts]. destruct (lookup k d) as [x|]; split.
  - intros H. eauto.
  - intros [x' [H H']]. now injection H as <-.
  - discriminate.
  - intros [x' [H _]]. discriminate.
Qed.

Lemma accepts_optional (k : string) (t : ty) (d : list (string * raw)) :
  field_accepts lax d (field_default k (TOptional t) RNone) = true <->
  absent_or_none_or (fun y => is_ok (validate lax t y) = true) (lookup k d).
Proof.
  cbn [field_default field_accepts]. destruct (lookup k d) as [x|].
  - apply validate_optional_is_ok.
  - simpl. tauto.
Qed.

Lemma accepts_required_str (k : string) (d : list (string * raw)) :
  field_accepts lax d (field k TStr) = true <-> exists s, lookup k d = Some (RStr s).
Proof.
  rewrite accepts_required. split.
  - intros [x [Hx H]]. apply validate_str_is_ok in H as [s ->]. eauto.
  - intros [s Hs]. exists (RStr s). split; [assumption | reflexivity].
Qed.

Lemma accepts_required_literal (k : string) (alts : list string) (d : list (string * raw)) :
  field_accepts lax d (field k (TLiteral alts)) = true <->
  exists s, lookup k d = Some (RStr s) /\ mem s alts = true.
Proof.
  rewrite accepts_required. split.
  - intros [x [Hx H]]. apply validate_literal_is_ok in H as [s [-> Hs]]. eauto.
  - intros [s [Hs Hm]]. exists (RStr s). split; [assumption|].
    apply validate_literal_is_ok. eauto.
Qed.


Lemma accepts_required_float (k : string) (d : list (string * raw)) :
  field_accepts lax d (field k TFloat) = true <->
  exists x, lookup k d = Some x /\ accepts_float lax x = true.
Proof. rewrite accepts_required. now setoid_rewrite validate_float_is_ok. Qed.

Lemma accepts_required_list (k : string) (t : ty) (d : list (string * raw)) :
  field_accepts lax d (field k (TList t)) = true <->
  exists x, lookup k d = Some x /\ is_list_of lax t x.
Proof.
  rewrite accepts_required. unfold is_list_of.
  split; intros [x [Hx H]]; exists x; (split; [assumption|]);
    now apply validate_list_is_ok.
Qed.

Lemma accepts_optional_str (k : string) (d : list (string * raw)) :
  field_accepts lax d (field_default k (TOptional TStr) RNone) = true <->
  absent_or_none_or is_string (lookup k d).
Proof.
  rewrite accepts_optional. apply absent_or_none_or_iff. apply validate_str_is_ok.
Qed.

Lemma accepts_optional_list (k : string) (t : ty) (d : list (string * raw)) :
  field_accepts lax d (field_default k (TOptional (TList t)) RNone) = true <->
  absent_or_none_or (is_list_of lax t) (lookup k d).
Proof.
  rewrite accepts_optional. apply absent_or_none_or_iff.
  intros x. unfold is_list_of. apply validate_list_is_ok.
Qed.


Lemma validate_content_is_ok (x : raw) :
  is_ok (validate lax MessageContent x) = true <->
  match x with
  | RStr _ | RList _ | RDict _ => True
  | _ => False
  end.
Proof. destruct x; simpl; split; solve [tauto | discriminate]. Qed.


End FieldAcceptance.

Section ClassAcceptance.

Variable lax : Coercions.




(** X13. What a response message needs.  A [CompletionMessage] is constructed
    exactly when [role] is the string "assistant", [content] is supplied and
    is a string, a sequence or a mapping ([None] is refused, and so is a
    number), [name] and [tool_call_id] are absent, [None] or strings,
    [function_call] is absent, [None] or an acceptable [CompletionFunction],
    and [tool_calls] is absent, [None] or a sequence of acceptable tool
    calls.  The items of a [content] sequence play no part. *)
Theorem completion_message_acceptance (kwargs : list (string * raw)) :
  is_ok (construct lax CompletionMessage kwargs) = true <->
  lookup "role" kwargs = Some (RStr "assistant") /\
  (exists c, lookup "content" kwargs = Some c /\
             match c with
             | RStr _ | RList _ | RDict _ => True
             | _ => False
             end) /\
  absent_or_none_or is_string (lookup "name" kwargs) /\
  absent_or_none_or (fun x => is_ok (validate lax CompletionFunction x) = true)
    (lookup "function_call" kwargs) /\
  absent_or_none_or (is_list_of lax CompletionToolCall) (lookup "tool_calls" kwargs) /\
  absent_or_none_or is_string (lookup "tool_call_id" kwargs).
Proof.
  unfold construct, CompletionMessage. rewrite validate_model_is_ok. cbn [forallb].
  rewrite andb_true_r, !andb_true_iff.
  rewrite accepts_required_literal, !accepts_optional_str, accepts_optional_list,
    accepts_optional, (accepts_required lax "content").
  setoid_rewrite validate_content_is_ok.
  assert (Hr : (exists s, lookup "role" kwargs = Some (RStr s) /\ mem s ["assistant"] = true)
               <-> lookup "role" kwargs = Some (RStr "assistant")).
  { split.
    - intros [s [Hs Hm]]. apply mem_singleton in Hm. now subst.
    - intros H. exists "assistant". split; [assumption | reflexivity]. }
  rewrite Hr. reflexivity.
Qed.


(** X15. What the log-probability records need.  A [TopLogprob] is
    constructed exactly when [token] is a string, [logprob] is a float (of
    any kind, infinite and NaN included) or converts to one, and [bytes] is
    absent, [None] or a sequence of integers (or of values that convert to
    integers).  A [TokenLogprob] needs, in
    addition, [top_logprobs]: a sequence of acceptable [TopLogprob]s, which
    may be empty but not left out.  A [ChoiceLogprobs] takes [content] and
    [refusal] independently, each absent, [None] or a sequence of acceptable
    [TokenLogprob]s. *)
Theorem logprob_acceptance (kwargs : list (string * raw)) :
  (is_ok (construct lax TopLogprob kwargs) = true <->
   (exists t, lookup "token" kwargs = Some (RStr t)) /\
   absent_or_none_or (is_list_of lax TInt) (lookup "bytes" kwargs) /\
   (exists x, lookup "logprob" kwargs = Some x /\ accepts_float lax x = true)) /\
  (is_ok (construct lax TokenLogprob kwargs) = true <->
   (exists t, lookup "token" kwargs = Some (RStr t)) /\
   absent_or_none_or (is_list_of lax TInt) (lookup "bytes" kwargs) /\
   (exists x, lookup "logprob" kwargs = Some x /\ accepts_float lax x = true) /\
   (exists x, lookup "top_logprobs" kwargs = Some x /\ is_list_of lax TopLogprob x)) /\
  (is_ok (construct lax ChoiceLogprobs kwargs) = true <->
   absent_or_none_or (is_list_of lax TokenLogprob) (lookup "content" kwargs) /\
   absent_or_none_or (is_list_of lax TokenLogprob) (lookup "refusal" kwargs)).
Proof.
  split; [|split].
  - unfold construct, TopLogprob. rewrite validate_model_is_ok. cbn [forallb].
    rewrite andb_true_r, !andb_true_iff.
    rewrite accepts_required_str, accepts_optional_list, accepts_required_float.
    reflexivity.
  - unfold construct, TokenLogprob. rewrite validate_model_is_ok. cbn [forallb].
    rewrite andb_true_r, !andb_true_iff.
    rewrite accepts_required_str, accepts_optional_list, accepts_required_float,
      accepts_required_list.
    reflexivity.
  - unfold construct, ChoiceLogprobs. rewrite validate_model_is_ok. cbn [forallb].
    rewrite andb_true_r, !andb_true_iff, !accepts_optional_list.
    reflexivity.
Qed.

End ClassAcceptance.

(** ** Message content, now and later *)

Section Content.

Variable lax : Coercions.

Lemma consume_is_ok (t : ty) (l : list raw) :
  is_ok (consume lax (VIter t l)) = forallb (fun p => is_ok (validate lax t p)) l.
Proof.
  cbn [consume].
  destruct (forallb (fun p => is_ok (validate lax t p)) l) eqn:E.
  - apply (all_ok_map_is_some (validate lax t) l) in E as [ws ->]. reflexivity.
  - destruct (all_ok (map (validate lax t) l)) as [ws|] eqn:Ea; [|reflexivity].
    assert (H : forallb (fun p => is_ok (validate lax t p)) l = true)
      by (apply (all_ok_map_is_some (validate lax t) l); eauto).
    congruence.
Qed.

(** X16. Content is kept in the form it came in, and its parts are checked
    late.  In a constructed [CompletionMessage], string content is stored as
    that string; sequence content is stored as an iterator over the very
    elements of the payload, none of which has been validated: consuming the
    iterator succeeds exactly when every element is a valid content part. *)
Theorem content_kept_and_checked_late (kwargs : list (string * raw)) (m : instance) :
  construct lax CompletionMessage kwargs = Ok (VModel m) ->
  (forall s, lookup "content" kwargs = Some (RStr s) ->
             lookup "content" (__dict__ m) = Some (VStr s)) /\
  (forall l, lookup "content" kwargs = Some (RList l) ->
             lookup "content" (__dict__ m) = Some (VIter MessageContentPart l) /\
             is_ok (consume lax (VIter MessageContentPart l)) =
               forallb (fun p => is_ok (validate lax MessageContentPart p)) l).
Proof.
  intros Hc.
  apply construct_model_inv in Hc as (name & fields & Heq & Herr & ->).
  injection Heq as <- <-. cbn [__dict__]. split.
  - intros s Hs.
    destruct (model_outcomes_supplied lax _ kwargs "content" MessageContent
                PydanticUndefined (RStr s) Herr eq_refl Hs) as [w [Hw Hl]].
    cbn in Hw. injection Hw as <-. exact Hl.
  - intros l Hs. split; [|apply consume_is_ok].
    destruct (model_outcomes_supplied lax _ kwargs "content" MessageContent
                PydanticUndefined (RList l) Herr eq_refl Hs) as [w [Hw Hl]].
    cbn in Hw. injection Hw as <-. exact Hl.
Qed.

End Content.

(** ** Request-side declared types *)

Section DeclaredTypes.

Variable lax : Coercions.

Lemma typed_dict_errors_nil_iff fields d :
  outcome_errors (typed_dict_outcomes lax fields d) = [] <->
  forallb (typed_dict_field_accepts lax d) fields = true.
Proof.
  induction fields as [|[k [required t]] fields IH]; [simpl; tauto|].
  cbn [typed_dict_outcomes map forallb typed_dict_field_accepts].
  fold (typed_dict_outcomes lax fields d).
  unfold typed_dict_field_outcome. rewrite andb_true_iff, <- IH.
  destruct (lookup k d) as [x|].
  - destruct (validate lax t x); simpl; split;
      solve [tauto | discriminate | intros [? ?]; discriminate].
  - destruct required; simpl; split;
      solve [tauto | discriminate | intros [? ?]; discriminate].
Qed.

Lemma validate_typed_dict_is_ok name fields d :
  is_ok (validate lax (TTypedDict name fields) (RDict d)) =
  forallb (typed_dict_field_accepts lax d) fields.
Proof.
  cbn [validate]. fold (typed_dict_outcomes lax fields d).
  pose proof (typed_dict_errors_nil_iff fields d) as H.
  destruct (outcome_errors (typed_dict_outcomes lax fields d)) as [|e errs].
  - symmetry. now apply H.
  - destruct (forallb (typed_dict_field_accepts lax d) fields); [|reflexivity].
    destruct H as [_ H]. specialize (H eq_refl). discriminate.
Qed.

Lemma td_required (k : string) (t : ty) (d : list (string * raw)) :
  typed_dict_field_accepts lax d (Required k t) = true <->
  exists x, lookup k d = Some x /\ is_ok (validate lax t x) = true.
Proof.
  cbn [Required typed_dict_field_accepts]. destruct (lookup k d) as [x|]; split.
  - intros H. eauto.
  - intros [x' [H H']]. now injection H as <-.
  - discriminate.
  - intros [x' [H _]]. discriminate.
Qed.

Lemma td_not_required (k : string) (t : ty) (d : list (string * raw)) :
  typed_dict_field_accepts lax d (NotRequired k t) = true <->
  absent_or (fun x => is_ok (validate lax t x) = true) (lookup k d).
Proof.
  cbn [NotRequired typed_dict_field_accepts]. destruct (lookup k d); simpl; tauto.
Qed.

Lemma td_required_str (k : string) (d : list (string * raw)) :
  typed_dict_field_accepts lax d (Required k TStr) = true <->
  exists s, lookup k d = Some (RStr s).
Proof.
  rewrite td_required. split.
  - intros [x [Hx H]]. apply validate_str_is_ok in H as [s ->]. eauto.
  - intros [s Hs]. exists (RStr s). split; [assumption | reflexivity].
Qed.

Lemma td_required_literal (k tag : string) (d : list (string * raw)) :
  typed_dict_field_accepts lax d (Required k (TLiteral [tag])) = true <->
  lookup k d = Some (RStr tag).
Proof.
  rewrite td_required. split.
  - intros [x [Hx H]]. apply validate_literal_is_ok in H as [s [-> Hs]].
    apply mem_singleton in Hs. now subst.
  - intros H. exists (RStr tag). split; [assumption|]. cbn.
    unfold mem. cbn. now rewrite String.eqb_refl.
Qed.

Lemma validate_dict_any_is_ok (x : raw) :
  is_ok (validate lax (TDict TAny) x) = true <-> is_mapping x.
Proof.
  unfold is_mapping. destruct x; try (simpl; split; [discriminate | intros [? H]; discriminate]).
  rewrite validate_dict_any. split; eauto.
Qed.

Lemma validate_iterable_is_ok (t : ty) (x : raw) :
  is_ok (validate lax (TIterable t) x) = true <-> is_iterable x.
Proof. destruct x; simpl; split; solve [tauto | discriminate]. Qed.

Lemma validate_bool_is_ok (x : raw) : is_ok (validate lax TBool x) = accepts_bool lax x.
Proof. destruct x; simpl; try reflexivity; now destruct (lax_bool lax _). Qed.

Lemma validate_function_is_ok (x : raw) :
  is_ok (validate lax Function x) = true <->
  exists f, x = RDict f /\
    (exists n, lookup "name" f = Some (RStr n)) /\
    (exists s, lookup "description" f = Some (RStr s)) /\
    (exists p, lookup "parameters" f = Some p /\ is_mapping p) /\
    absent_or (fun b => accepts_bool lax b = true) (lookup "strict" f).
Proof.
  destruct x; try (simpl; split; [discriminate | intros [? [H _]]; discriminate]).
  unfold Function, FunctionParameters. rewrite validate_typed_dict_is_ok. cbn [forallb].
  rewrite andb_true_r, !andb_true_iff.
  rewrite !td_required_str, td_required, td_not_required.
  setoid_rewrite validate_dict_any_is_ok.
  assert (Hb : absent_or (fun x => is_ok (validate lax TBool x) = true) (lookup "strict" d)
               <-> absent_or (fun b => accepts_bool lax b = true) (lookup "strict" d)).
  { destruct (lookup "strict" d); cbn [absent_or];
      [now rewrite validate_bool_is_ok | tauto]. }
  rewrite Hb. split.
  - intros H. exists d. split; [reflexivity | exact H].
  - intros [f [Hf H]]. injection Hf as <-. exact H.
Qed.

(** X17. The declared type of a request message.  Validated against its
    declared type, a [Message] mapping conforms exactly when [role] is one of
    "assistant", "user", "system", "tool", "developer", [content] is supplied
    and is a string or a sequence (or any other iterable), and each of
    [name], [function_call], [tool_calls], [tool_call_id] is either absent or
    of its type: a string, a mapping, an iterable, a string.  No condition
    ties these keys to the role, and, unlike in a response message, [None]
    is not accepted for them. *)
Theorem message_declared_type (d : list (string * raw)) :
  is_ok (validate lax Message (RDict d)) = true <->
  (exists r, lookup "role" d = Some (RStr r) /\
             In r [ "assistant"; "user"; "system"; "tool"; "developer" ]) /\
  (exists c, lookup "content" d = Some c /\ is_iterable c) /\
  absent_or is_string (lookup "name" d) /\
  absent_or is_mapping (lookup "function_call" d) /\
  absent_or is_iterable (lookup "tool_calls" d) /\
  absent_or is_string (lookup "tool_call_id" d).
Proof.
  unfold Message, MessageRole. rewrite validate_typed_dict_is_ok. cbn [forallb].
  rewrite andb_true_r, !andb_true_iff.
  rewrite !td_required, !td_not_required.
  setoid_rewrite validate_content_is_ok.
  assert (Hs : forall o, absent_or (fun x => is_ok (validate lax TStr x) = true) o
                         <-> absent_or is_string o).
  { intros [x|]; cbn [absent_or]; [apply validate_str_is_ok | tauto]. }
  assert (Hm : forall o, absent_or (fun x => is_ok (validate lax (TDict TAny) x) = true) o
                         <-> absent_or is_mapping o).
  { intros [x|]; cbn [absent_or]; [apply validate_dict_any_is_ok | tauto]. }
  assert (Hi : forall o,
             absent_or (fun x => is_ok (validate lax (TIterable (TDict TAny)) x) = true) o
             <-> absent_or is_iterable o).
  { intros [x|]; cbn [absent_or]; [apply validate_iterable_is_ok | tauto]. }
  rewrite !Hs, Hm, Hi.
  assert (Hr : (exists x, lookup "role" d = Some x /\
                          is_ok (validate lax
                                   (TLiteral [ "assistant"; "user"; "system"; "tool";
                                               "developer" ]) x) = true)
               <-> exists r, lookup "role" d = Some (RStr r) /\
                             In r [ "assistant"; "user"; "system"; "tool"; "developer" ]).
  { split.
    - intros [x [Hx H]]. apply validate_literal_is_ok in H as [s [-> Hin]].
      exists s. split; [assumption | now apply mem_In].
    - intros [r [Hx Hin]]. exists (RStr r). split; [assumption|].
      apply validate_literal_is_ok. exists r. split; [reflexivity | now apply mem_In]. }
  rewrite Hr.
  assert (Hc : (exists x, lookup "content" d = Some x /\
                          match x with
                          | RStr _ | RList _ | RDict _ => True
                          | _ => False
                          end)
               <-> exists c, lookup "content" d = Some c /\ is_iterable c).
  { reflexivity. }
  rewrite Hc. reflexivity.
Qed.

(** X18. The declared types of tool calls.  Validated against its declared
    type, a [FunctionCall] conforms exactly when [name] and [arguments] are
    strings.  A [ToolCall] conforms exactly when [id] is a string, [type] is
    the string "function" and [function] conforms to [Function], the
    declaration of a function: a mapping with a string [name], a string
    [description] and a mapping [parameters].  So a tool call whose
    [function] holds only [name] and [arguments] does not conform.  A [Tool]
    conforms exactly when [type] is the string "function" and [function]
    conforms to [Function]. *)
Theorem tool_call_declared_types (d : list (string * raw)) :
  (is_ok (validate lax FunctionCall (RDict d)) = true <->
   (exists n, lookup "name" d = Some (RStr n)) /\
   (exists a, lookup "arguments" d = Some (RStr a))) /\
  (is_ok (validate lax ToolCall (RDict d)) = true <->
   (exists i, lookup "id" d = Some (RStr i)) /\
   (exists f, lookup "function" d = Some (RDict f) /\
      (exists n, lookup "name" f = Some (RStr n)) /\
      (exists s, lookup "description" f = Some (RStr s)) /\
      (exists p, lookup "parameters" f = Some p /\ is_mapping p) /\
      absent_or (fun b => accepts_bool lax b = true) (lookup "strict" f)) /\
   lookup "type" d = Some (RStr "function")) /\
  (is_ok (validate lax Tool (RDict d)) = true <->
   lookup "type" d = Some (RStr "function") /\
   (exists f, lookup "function" d = Some (RDict f) /\
      (exists n, lookup "name" f = Some (RStr n)) /\
      (exists s, lookup "description" f = Some (RStr s)) /\
      (exists p, lookup "parameters" f = Some p /\ is_mapping p) /\
      absent_or (fun b => accepts_bool lax b = true) (lookup "strict" f))).
Proof.
  split; [|split].
  - unfold FunctionCall. rewrite validate_typed_dict_is_ok. cbn [forallb].
    rewrite andb_true_r, !andb_true_iff, !td_required_str. reflexivity.
  - unfold ToolCall. rewrite validate_typed_dict_is_ok. cbn [forallb].
    rewrite andb_true_r, !andb_true_iff.
    rewrite td_required_str, td_required_literal, td_required.
    setoid_rewrite validate_function_is_ok.
    split.
    + intros [Hi [[x [Hx [f [-> Hf]]]] Ht]].
      split; [assumption|]. split; [|assumption]. exists f. split; assumption.
    + intros [Hi [[f [Hx Hf]] Ht]].
      split; [assumption|]. split; [|assumption].
      exists (RDict f). split; [assumption|]. exists f. split; [reflexivity | assumption].
  - unfold Tool. rewrite validate_typed_dict_is_ok. cbn [forallb].
    rewrite andb_true_r, !andb_true_iff.
    rewrite td_required_literal, td_required.
    setoid_rewrite validate_function_is_ok.
    split.
    + intros [Ht [x [Hx [f [-> Hf]]]]].
      split; [assumption|]. exists f. split; assumption.
    + intros [Ht [f [Hx Hf]]].
      split; [assumption|].
      exists (RDict f). split; [assumption|]. exists f. split; [reflexivity | assumption].
Qed.

End DeclaredTypes.

(** ** Serialization of what was constructed and written *)

Section Serialization.

Variable lax : Coercions.
Variable readonly_property : string -> string -> bool.
Variable object_setattr : instance -> string -> value -> result instance.

(** Plain data in a slot that declares nothing for it is written as it is. *)
Lemma dump_of_raw : forall r : raw, dump (of_raw r) = of_raw r.
Proof.
  unfold dump.
  fix IH 1. intros [ | b | z | f | s | l | d ]; cbn [of_raw dump_slot]; try reflexivity.
  - f_equal. induction l as [|x l IHl]; [reflexivity|].
    cbn [map]. now rewrite IH, IHl.
  - f_equal. induction d as [|[k x] d IHd]; [reflexivity|].
    cbn [map fst snd]. now rewrite IH, IHd.
Qed.

(** A scalar is written as it is, whatever the slot declares. *)
Lemma dump_by_scalar (v : raw) (t : ty) : scalar v = true -> dump_by (of_raw v) t = of_raw v.
Proof.
  unfold dump_by. generalize (resolve t (of_raw v)).
  destruct v; try discriminate; reflexivity.
Qed.


(** X19. Serialization writes every declared field.  The key/value
    representation of a constructed instance has the declared field names of
    the class, all of them and in declaration order; a field that the payload
    left out appears with its declared default, serialized by the declared
    type of the field: the default itself when it is [None] (as for every
    optional field of the file) or another scalar. *)
Theorem model_dump_writes_every_field (Cls : ty) (kwargs : list (string * raw))
    (m : instance) :
  construct lax Cls kwargs = Ok (VModel m) ->
  exists items,
    model_dump m = VDict items /\
    map fst items = map fst (fields_of Cls) /\
    (forall k t v, lookup k (fields_of Cls) = Some (t, Default v) -> lookup k kwargs = None ->
                   lookup k items = Some (dump_by (of_raw v) t)) /\
    (forall k v, default_of Cls k = Some (Default v) -> lookup k kwargs = None ->
                 scalar v = true -> lookup k items = Some (of_raw v)).
Proof.
  intros Hc.
  apply construct_model_inv in Hc as (name & fields & -> & Herr & ->).
  rewrite model_dump_items. cbn [__dict__ model_fields fields_of].
  assert (Hdef : forall k t v, lookup k fields = Some (t, Default v) ->
                               lookup k kwargs = None ->
                               lookup k (written_items
                                           (map (fun f => (fst f, fst (snd f))) fields)
                                           (outcome_items (model_outcomes lax fields kwargs))) =
                               Some (dump_by (of_raw v) t)).
  { intros k t v Hf Hk. apply lookup_written_items.
    - exact (model_outcomes_defaulted lax fields kwargs k t v Herr Hf Hk).
    - now rewrite lookup_field_types, Hf. }
  eexists. split; [reflexivity|]. split; [|split].
  - rewrite written_items_keys; [exact (model_outcomes_items_keys lax fields kwargs Herr)|].
    intros k Hk. rewrite map_map. cbn [fst].
    rewrite (model_outcomes_items_keys lax fields kwargs Herr) in Hk. exact Hk.
  - exact Hdef.
  - intros k v Hd Hk Hs. unfold default_of in Hd. cbn [fields_of] in Hd.
    destruct (lookup k fields) as [[t dflt]|] eqn:Ef; [|discriminate].
    cbn in Hd. injection Hd as ->.
    rewrite (Hdef k t v Ef Hk). now rewrite dump_by_scalar.
Qed.


End Serialization.

(** ** The further properties at sample inputs *)

Lemma write_makes_present_witness :
  well_formed no_logprobs = true /\
  __contains__ no_logprobs "content" = false /\
  exists m',
    __setitem__ base_properties plain_setattr no_logprobs "content" VNone = Ok m' /\
    __contains__ m' "content" = true /\
    get no_type_attr m' "content" (VStr "fallback") = Ok VNone.
Proof.
  split; [reflexivity|]. split; [reflexivity|].
  apply (write_makes_present no_type_attr base_properties plain_setattr no_logprobs "content" VNone
           (VStr "fallback")); reflexivity.
Defined.


Lemma last_write_wins_witness :
  exists m1 m2,
    __setitem__ base_properties plain_setattr an_embedding "index" (VInt 1) = Ok m1 /\
    __setitem__ base_properties plain_setattr m1 "index" (VInt 2) = Ok m2 /\
    __setitem__ base_properties plain_setattr an_embedding "index" (VInt 2) = Ok m2.
Proof.
  assert (H1 : exists m1,
             __setitem__ base_properties plain_setattr an_embedding "index" (VInt 1) = Ok m1)
    by (eexists; reflexivity).
  destruct H1 as [m1 H1].
  assert (H2 : exists m2, __setitem__ base_properties plain_setattr m1 "index" (VInt 2) = Ok m2).
  { injection H1 as <-. eexists. reflexivity. }
  destruct H2 as [m2 H2].
  exists m1, m2. split; [exact H1|]. split; [exact H2|].
  apply (last_write_wins base_properties plain_setattr an_embedding m1 m2
           "index" (VInt 1) (VInt 2));
    [reflexivity | exact H1 | exact H2].
Defined.

Lemma get_sees_fields_only_witness :
  well_formed an_embedding = true /\
  declared an_embedding "get" = false /\
  __getitem__ no_type_attr an_embedding "get" = Ok (VMethod "get") /\
  __contains__ an_embedding "get" = false /\
  get no_type_attr an_embedding "get" VNone = Ok VNone.
Proof.
  split; [reflexivity|]. split; [reflexivity|].
  apply (get_sees_fields_only no_type_attr an_embedding "get" VNone); reflexivity.
Defined.

Lemma instance_invariant_witness :
  map fst (__dict__ an_embedding) = map fst (model_fields an_embedding) /\
  (forall k, In k (model_fields_set an_embedding) ->
             In k (map fst (model_fields an_embedding))) /\
  (forall k, __contains__ an_embedding k = true ->
             exists v, __getitem__ no_type_attr an_embedding k = Ok v).
Proof.
  apply (instance_invariant no_type_attr base_properties plain_setattr no_coercion an_embedding).
  apply (reach_construct no_coercion base_properties plain_setattr Embedding embedding_kwargs);
    reflexivity.
Defined.

Lemma contains_after_construction_witness :
  construct no_coercion Embedding annotated_embedding_kwargs = Ok (VModel an_embedding) /\
  __contains__ an_embedding "index" = true /\
  (__contains__ an_embedding "note" = true -> False).
Proof.
  split; [reflexivity|]. split.
  - apply (proj2 (contains_after_construction no_coercion Embedding
                    annotated_embedding_kwargs an_embedding "index" eq_refl)).
    left. split; discriminate.
  - intros H.
    apply (proj1 (contains_after_construction no_coercion Embedding
                    annotated_embedding_kwargs an_embedding "note" eq_refl)) in H.
    destruct H as [[H _] | [v [H _]]]; [now apply H | discriminate H].
Defined.

Lemma explicit_none_is_present_witness :
  construct no_coercion ChoiceLogprobs [ ("content", RNone) ] =
    Ok (VModel null_content_logprobs) /\
  __contains__ null_content_logprobs "content" = true /\
  get no_type_attr null_content_logprobs "content" (VStr "fallback") = Ok VNone.
Proof.
  split; [reflexivity|].
  apply (explicit_none_is_present no_coercion no_type_attr ChoiceLogprobs
           [ ("content", RNone) ] null_content_logprobs "content"
           (TList TokenLogprob) (Default RNone) (VStr "fallback")); reflexivity.
Defined.

Lemma undeclared_keys_do_not_matter_witness :
  construct no_coercion Embedding annotated_embedding_kwargs =
  construct no_coercion Embedding embedding_kwargs.
Proof.
  apply (undeclared_keys_do_not_matter no_coercion "Embedding"
           [ field "embedding" (TList TFloat); field "index" TInt;
             field "object" (TLiteral ["embedding"]) ]).
  intros k Hk. apply default_of_declared in Hk.
  destruct Hk as [<-|[<-|[<-|[]]]]; reflexivity.
Defined.

Lemma required_field_missing_witness :
  default_of Completion "model" = Some PydanticUndefined /\
  exists errs,
    construct no_coercion Completion [ ("id", RStr "cmpl-1") ] =
      Raise (ValidationError errs) /\ In "model" errs.
Proof.
  split; [reflexivity|].
  apply (required_field_missing no_coercion Completion [ ("id", RStr "cmpl-1") ] "model");
    reflexivity.
Defined.

Lemma omitted_field_reads_default_witness :
  (construct no_coercion ChoiceLogprobs [] = Ok (VModel no_logprobs) /\
   __getitem__ no_type_attr no_logprobs "refusal" = Ok VNone /\
   forall fallback, get no_type_attr no_logprobs "refusal" fallback = Ok fallback) /\
  (construct no_coercion Page [ ("items", RList []) ] = Ok (VModel a_page) /\
   __getitem__ no_type_attr a_page "object" = Ok (VStr "list") /\
   forall fallback, get no_type_attr a_page "object" fallback = Ok (VStr "list")).
Proof.
  split; (split; [reflexivity|]).
  - apply (omitted_field_reads_default no_coercion no_type_attr ChoiceLogprobs []
             no_logprobs "refusal" RNone); reflexivity.
  - apply (omitted_field_reads_default no_coercion no_type_attr Page [ ("items", RList []) ]
             a_page "object" (RStr "list")); reflexivity.
Defined.

Lemma choices_kept_in_order_witness :
  exists m cs ws,
    construct no_coercion Completion two_choices_kwargs = Ok (VModel m) /\
    lookup "choices" two_choices_kwargs = Some (RList cs) /\
    lookup "choices" (__dict__ m) = Some (VList ws) /\
    List.length cs = 2 /\ List.length ws = 2.
Proof.
  assert (Hm : exists m, construct no_coercion Completion two_choices_kwargs = Ok (VModel m))
    by (eexists; reflexivity).
  destruct Hm as [m Hm]. exists m.
  destruct (choices_kept_in_order no_coercion Completion Completion_Choice
              two_choices_kwargs m (or_introl eq_refl) Hm)
    as (cs & ws & Hcs & Hws & Hf).
  exists cs, ws. split; [exact Hm|]. split; [exact Hcs|]. split; [exact Hws|].
  pose proof (Forall2_length Hf) as Hlen.
  injection Hcs as <-. split; [reflexivity | now rewrite <- Hlen].
Defined.


Lemma completion_message_acceptance_witness :
  is_ok (construct no_coercion CompletionMessage
           [ ("role", RStr "assistant"); ("content", RNone) ]) = false /\
  is_ok (construct no_coercion CompletionMessage mixed_content_kwargs) = true.
Proof.
  split.
  - destruct (is_ok (construct no_coercion CompletionMessage
                       [ ("role", RStr "assistant"); ("content", RNone) ])) eqn:E;
      [|reflexivity].
    apply (proj1 (completion_message_acceptance no_coercion _)) in E.
    destruct E as [_ [[c [Hc Hs]] _]]. injection Hc as <-. destruct Hs.
  - apply (proj2 (completion_message_acceptance no_coercion mixed_content_kwargs)).
    split; [reflexivity|]. split; [eexists; split; [reflexivity | exact I]|].
    repeat split.
Defined.


Lemma logprob_acceptance_witness :
  is_ok (construct no_coercion TopLogprob
           [ ("token", RStr "a"); ("logprob", RFloat S754_nan) ]) = true /\
  is_ok (construct no_coercion TokenLogprob
           [ ("token", RStr "a"); ("logprob", RFloat (S754_infinity true)) ]) = false.
Proof.
  split.
  - apply (proj2 (proj1 (logprob_acceptance no_coercion _))).
    split; [eexists; reflexivity|]. split; [exact I|].
    eexists. split; reflexivity.
  - destruct (is_ok (construct no_coercion TokenLogprob
                       [ ("token", RStr "a"); ("logprob", RFloat (S754_infinity true)) ]))
      eqn:E; [|reflexivity].
    apply (proj1 (proj1 (proj2 (logprob_acceptance no_coercion _)))) in E.
    destruct E as [_ [_ [_ [x [Hx _]]]]]. discriminate Hx.
Defined.

Lemma content_kept_and_checked_late_witness :
  exists m,
    construct no_coercion CompletionMessage mixed_content_kwargs = Ok (VModel m) /\
    lookup "content" (__dict__ m) = Some (VIter MessageContentPart mixed_content) /\
    is_ok (consume no_coercion (VIter MessageContentPart mixed_content)) = false.
Proof.
  assert (Hm : exists m,
             construct no_coercion CompletionMessage mixed_content_kwargs = Ok (VModel m))
    by (eexists; reflexivity).
  destruct Hm as [m Hm]. exists m. split; [exact Hm|].
  destruct (proj2 (content_kept_and_checked_late no_coercion mixed_content_kwargs m Hm)
              mixed_content eq_refl) as [Hl Hc].
  split; [exact Hl|]. rewrite Hc. reflexivity.
Defined.

Lemma message_declared_type_witness :
  is_ok (validate no_coercion Message (RDict tool_message)) = true /\
  is_ok (validate no_coercion Message
           (RDict [ ("role", RStr "user"); ("content", RStr "hi");
                    ("tool_call_id", RStr "call_1") ])) = true /\
  is_ok (validate no_coercion Message
           (RDict [ ("role", RStr "user"); ("content", RStr "hi"); ("name", RNone) ])) = false.
Proof.
  split; [|split].
  - apply (proj2 (message_declared_type no_coercion tool_message)).
    split; [eexists; split; [reflexivity | simpl; tauto]|].
    split; [eexists; split; [reflexivity | exact I]|].
    repeat split. eexists. reflexivity.
  - apply (proj2 (message_declared_type no_coercion _)).
    split; [eexists; split; [reflexivity | simpl; tauto]|].
    split; [eexists; split; [reflexivity | exact I]|].
    repeat split. eexists. reflexivity.
  - destruct (is_ok (validate no_coercion Message
                       (RDict [ ("role", RStr "user"); ("content", RStr "hi");
                                ("name", RNone) ]))) eqn:E; [|reflexivity].
    apply (proj1 (message_declared_type no_coercion _)) in E.
    destruct E as [_ [_ [[s Hs] _]]]. discriminate Hs.
Defined.

Lemma tool_call_declared_types_witness :
  is_ok (validate no_coercion ToolCall (RDict emitted_tool_call)) = false /\
  is_ok (validate no_coercion FunctionCall
           (RDict [ ("name", RStr "lookup"); ("arguments", RStr "not json") ])) = true.
Proof.
  split.
  - destruct (is_ok (validate no_coercion ToolCall (RDict emitted_tool_call))) eqn:E;
      [|reflexivity].
    apply (proj1 (proj2 (tool_call_declared_types no_coercion emitted_tool_call))) in E.
    destruct E as [_ [[f [Hf [_ [[s Hs] _]]]] _]].
    injection Hf as <-. discriminate Hs.
  - apply (proj2 (proj1 (tool_call_declared_types no_coercion _))).
    split; eexists; reflexivity.
Defined.

Lemma model_dump_writes_every_field_witness :
  exists items,
    model_dump no_logprobs = VDict items /\
    map fst items = [ "content"; "refusal" ] /\
    lookup "refusal" items = Some VNone.
Proof.
  destruct (model_dump_writes_every_field no_coercion ChoiceLogprobs [] no_logprobs eq_refl)
    as (items & Hd & Hk & _ & Hv).
  exists items. split; [exact Hd|]. split; [exact Hk|].
  apply (Hv "refusal" RNone); reflexivity.
Defined.

(** A default that is a mapping is serialized by the declared type of its
    field, as any value is: the attribute holds the default as declared, the
    key/value representation the keys of it that the type declares. *)
Lemma default_serialized_by_type :
  exists m items,
    construct no_coercion Tagged [] = Ok (VModel m) /\
    __getitem__ no_type_attr m "part" =
      Ok (VDict [ ("text", VStr ""); ("type", VStr "text"); ("note", VStr "n") ]) /\
    model_dump m = VDict items /\
    lookup "part" items = Some (VDict [ ("text", VStr ""); ("type", VStr "text") ]).
Proof. do 2 eexists. repeat split; reflexivity. Qed.

